(** * Skyscraper dashboard: the data pipeline of [finalproject.py]

    A shallow embedding of the load / sort / filter / aggregate pipeline of
    the dashboard script, and the properties of it that the specification
    states.

    Conventions of the embedding.
    - A pandas [DataFrame] is a list of rows, in row order.  A column is a
      field of the row record.
    - A [float64] cell is its exact rational value ([Q]); [None] is NaN.
      Rounding of sums in binary64 and infinite values are outside the
      model.
    - A Python [str] is a [string]; [lower] and [strip] are modelled on
      the ASCII range, and characters above it are left as they are.
    - Indexing a frame with a boolean mask and taking its [head] give a
      frame object of their own, and [frame[col] = series] puts the new
      column into the frame object it is applied to: the frame the rows
      were taken from keeps its column.  Each such assignment of the
      script is a step of the model that gives the frame assigned to its
      new rows. *)

From Stdlib Require Import ZArith QArith Qabs List String Ascii Bool Lia.
From Stdlib Require Import Permutation Sorted DecimalString.
Import ListNotations.

Local Open Scope string_scope.

(** ** Python string methods *)

Module PyStr.

Definition is_empty (s : string) : bool :=
  match s with EmptyString => true | String _ _ => false end.

(** [str.isspace] on one character. *)
Definition is_space (c : ascii) : bool :=
  let n := nat_of_ascii c in
  ((9 <=? n)%nat && (n <=? 13)%nat)
  || ((28 <=? n)%nat && (n <=? 32)%nat).

(** [c in chars] *)
Fixpoint mem (c : ascii) (chars : string) : bool :=
  match chars with
  | EmptyString => false
  | String d t => Ascii.eqb c d || mem c t
  end.

Fixpoint lstrip_by (p : ascii -> bool) (s : string) : string :=
  match s with
  | EmptyString => EmptyString
  | String c t => if p c then lstrip_by p t else s
  end.

Fixpoint rstrip_by (p : ascii -> bool) (s : string) : string :=
  match s with
  | EmptyString => EmptyString
  | String c t =>
      let t' := rstrip_by p t in
      if p c && is_empty t' then EmptyString else String c t'
  end.

(** [s.rstrip(chars)] *)
Definition rstrip (chars : string) (s : string) : string :=
  rstrip_by (fun c => mem c chars) s.

(** [s.strip()] *)
Definition strip (s : string) : string :=
  rstrip_by is_space (lstrip_by is_space s).

Definition lower_char (c : ascii) : ascii :=
  let n := nat_of_ascii c in
  if (65 <=? n)%nat && (n <=? 90)%nat then ascii_of_nat (n + 32) else c.

(** [s.lower()] *)
Fixpoint lower (s : string) : string :=
  match s with
  | EmptyString => EmptyString
  | String c t => String (lower_char c) (lower t)
  end.

(** [str(n)] for an [int]. *)
Definition str_of_Z (z : Z) : string :=
  NilZero.string_of_int (Z.to_int z).

End PyStr.

(** ** Number formatting: [f"{x:.2f}"] *)

Module Fmt.

(** Nearest integer, ties to even: the rounding of the decimal
    conversion. *)
Definition round_half_even (x : Q) : Z :=
  let n := Qnum x in
  let d := Zpos (Qden x) in
  let q := (n / d)%Z in
  let r := (n mod d)%Z in
  match (2 * r ?= d)%Z with
  | Lt => q
  | Gt => (q + 1)%Z
  | Eq => if Z.even q then q else (q + 1)%Z
  end.

Definition digit_char (d : Z) : ascii :=
  ascii_of_nat (48 + Z.to_nat d).

(** The hundredths [m >= 0] written with two decimals. *)
Definition fixed2 (m : Z) : string :=
  PyStr.str_of_Z (m / 100)
    ++ "."
    ++ String (digit_char ((m / 10) mod 10))
         (String (digit_char (m mod 10)) EmptyString).

Definition is_negative (x : Q) : bool :=
  (Qnum x <? 0)%Z.

(** [f"{x:.2f}"] *)
Definition format_2f (x : Q) : string :=
  (if is_negative x then "-" else "")
    ++ fixed2 (round_half_even (Qabs x * 100)).

(** The lambda of the display tables:
    [lambda x: f"{x:.2f}".rstrip('0').rstrip('.')] *)
Definition formatHeight (x : Q) : string :=
  PyStr.rstrip "." (PyStr.rstrip "0" (format_2f x)).

End Fmt.

(** ** Data frames *)

(** A cell of an [object] or [int64] column. *)
Inductive cell :=
| CNa                 (* NaN: a missing value *)
| CInt (z : Z)
| CStr (s : string).

(** One line of the table.  The fields stand for the columns
    ['name'], ['location.city'], ['location.latitude'],
    ['location.longitude'], ['statistics.height'],
    ['status.completed.is completed'] and ['status.completed.year'].
    The two coordinate columns are relabelled ['latitude'] and
    ['longitude'] by the [rename] of the load stage; relabelling a column
    leaves its cells as they are. *)
Record row := mkRow {
  name : option string;
  city : cell;
  latitude : option Q;
  longitude : option Q;
  height : option Q;
  is_completed : option bool;
  year : cell
}.

Definition frame := list row.

Definition set_city (c : cell) (r : row) : row :=
  mkRow (name r) c (latitude r) (longitude r) (height r)
        (is_completed r) (year r).

Definition set_year (y : cell) (r : row) : row :=
  mkRow (name r) (city r) (latitude r) (longitude r) (height r)
        (is_completed r) y.

Module Cell.

Definition eqb (a b : cell) : bool :=
  match a, b with
  | CNa, CNa => true
  | CInt x, CInt y => (x =? y)%Z
  | CStr s, CStr t => String.eqb s t
  | _, _ => false
  end.

(** [series.notna()] *)
Definition notna (c : cell) : bool :=
  match c with CNa => false | _ => true end.

(** [series == s] for a [str] on the right: a cell that is not that
    string compares unequal (a missing one too). *)
Definition eq_str (c : cell) (s : string) : bool :=
  match c with CStr t => String.eqb t s | _ => false end.

(** [series.astype(str)] on one cell. *)
Definition astype_str (c : cell) : string :=
  match c with
  | CNa => "nan"
  | CInt z => PyStr.str_of_Z z
  | CStr s => s
  end.

(** [series.replace(0, "Unknown")] on one cell. *)
Definition replace_0_Unknown (c : cell) : cell :=
  match c with
  | CInt 0 => CStr "Unknown"
  | _ => c
  end.

(** The order of group keys: numbers before strings, each kind
    ascending. *)
Definition leb (a b : cell) : bool :=
  match a, b with
  | CInt x, CInt y => (x <=? y)%Z
  | CInt _, _ => true
  | CStr s, CStr t => String.leb s t
  | CStr _, CInt _ => false
  | CStr _, CNa => true
  | CNa, CNa => true
  | CNa, _ => false
  end.

End Cell.

(** Comparisons of a [float64] cell with a number: NaN compares false. *)
Module Float.

Definition gt (x : option Q) (c : Q) : bool :=
  match x with Some q => negb (Qle_bool q c) | None => false end.

Definition ge (x : option Q) (c : Q) : bool :=
  match x with Some q => Qle_bool c q | None => false end.

Definition le (x : option Q) (c : Q) : bool :=
  match x with Some q => Qle_bool q c | None => false end.

End Float.

(** ** Reading the table *)

Inductive exn :=
| FileNotFoundError
| PermissionError
| EmptyDataError
| ParserError
| UnicodeDecodeError
| NameError (var : string)
| IndexError
| TypeError
| StreamlitAPIException.

(** What [pd.read_csv('skyscrapers.csv')] finds: no file, a file it cannot
    read or parse (with the exception it raises), or a table of typed
    fields. *)
Inductive source :=
| Absent
| Unreadable (e : exn)
| Table (rows : frame).

(** The parser's default [na_values]: a text field spelled like one of
    these is a missing value. *)
Definition na_values : list string :=
  [ ""; "#N/A"; "#N/A N/A"; "#NA"; "-1.#IND"; "-1.#QNAN"; "-NaN"; "-nan";
    "1.#IND"; "1.#QNAN"; "<NA>"; "N/A"; "NA"; "NULL"; "NaN"; "None";
    "n/a"; "nan"; "null" ].

Definition is_na_text (s : string) : bool :=
  existsb (String.eqb s) na_values.

Definition na_cell (c : cell) : cell :=
  match c with
  | CStr s => if is_na_text s then CNa else c
  | _ => c
  end.

Definition na_name (n : option string) : option string :=
  match n with
  | Some s => if is_na_text s then None else n
  | None => None
  end.

Definition na_row (r : row) : row :=
  mkRow (na_name (name r)) (na_cell (city r)) (latitude r) (longitude r)
        (height r) (is_completed r) (na_cell (year r)).

Definition read_csv (src : source) : exn + frame :=
  match src with
  | Absent => inl FileNotFoundError
  | Unreadable e => inl e
  | Table rows => inr (map na_row rows)
  end.

(** ** The load stage (lines 15 to 21) *)

(** [df[(df['statistics.height'] > 0) & (df['location.city'].notna())]] *)
Definition keep_row (r : row) : bool :=
  Float.gt (height r) 0 && Cell.notna (city r).

(** [df['location.city'] = df['location.city'].astype(str)] *)
Definition city_astype_str (r : row) : row :=
  set_city (CStr (Cell.astype_str (city r))) r.

Definition clean (f : frame) : frame :=
  map city_astype_str (filter keep_row f).

(** ** Sorting by height, tallest first (line 33)

    [df.sort_values(by='statistics.height', ascending=False)] names the
    column and the direction and leaves [kind] at the library's default,
    ['quicksort'].  Which of the rows of one height comes first is then
    decided inside the library, by the sorting routine its build and the
    processor select, and by nothing in the script.  The sort is
    therefore a parameter of the script below, and a property that needs
    the sorted store says what it needs of it: that it holds the rows of
    the store ([Permutation]) or that it is in descending order of height
    ([height_desc]), rows without a height last. *)

(** [a] may stand before [b] in the descending order. *)
Definition desc_ok (a b : option Q) : Prop :=
  match a, b with
  | Some x, Some y => y <= x
  | _, None => True
  | None, Some _ => False
  end.

Definition height_desc (f : frame) : Prop :=
  StronglySorted (fun a b => desc_ok (height a) (height b)) f.

(** ** Queries *)

(** [frame.head(n)]: the first [n] rows, or all but the last [-n]. *)
Definition head (n : Z) (f : frame) : frame :=
  if (0 <=? n)%Z then firstn (Z.to_nat n) f
  else firstn (List.length f - Z.to_nat (- n)) f.

Definition in_city (c : string) (r : row) : bool :=
  Cell.eq_str (city r) c.

(** [get_tallest_skyscrapers(city, top_n=5)], with the global [df] it
    reads as an argument. *)
Definition get_tallest_skyscrapers (df : frame) (c : string) (top_n : Z)
  : frame * nat :=
  let city_df :=
    if String.eqb c "ALL CITIES" then head top_n df
    else head top_n (filter (in_city c) df) in
  let skyscraper_count := List.length city_df in
  (city_df, skyscraper_count).

Definition default_top_n : Z := 5.

(** Lines 36 and 39: the completed buildings, with the year column
    replaced. *)
Definition completed (r : row) : bool :=
  match is_completed r with Some true => true | _ => false end.

Definition replace_year (r : row) : row :=
  set_year (Cell.replace_0_Unknown (year r)) r.

(** [f['status.completed.year'] =
    f['status.completed.year'].replace(0, "Unknown")]: the frame [f] with
    its year column replaced (lines 39, 117 and 152). *)
Definition setitem_year_replaced (f : frame) : frame :=
  map replace_year f.

Definition completed_df (df : frame) : frame :=
  setitem_year_replaced (filter completed df).

(** Lines 76 to 79. *)
Definition filtered_df (cdf : frame) (c : string) : frame :=
  if String.eqb c "ALL CITIES" then cdf
  else filter (in_city c) cdf.

(** Lines 188 to 194. *)
Definition map_filtered_df (df : frame) (c : string) (lo hi : Z) : frame :=
  if String.eqb c "ALL CITIES" then
    filter (fun r => Float.ge (height r) (inject_Z lo)
                     && Float.le (height r) (inject_Z hi)) df
  else
    filter (fun r => in_city c r
                     && Float.ge (height r) (inject_Z lo)
                     && Float.le (height r) (inject_Z hi)) df.

(** *** The name search of the sidebar (lines 54 to 65) *)

Inductive search_result :=
| Located (city_of_skyscraper : cell)
| NotFound
| EnterAName.

(** [df['name'].str.lower() == standardized_name] on one row; a missing
    name compares unequal. *)
Definition name_matches (standardized_name : string) (r : row) : bool :=
  match name r with
  | Some n => String.eqb (PyStr.lower n) standardized_name
  | None => false
  end.

Definition find_city (df : frame) (skyscraper_name_input : string)
  : search_result :=
  let standardized_name := PyStr.lower (PyStr.strip skyscraper_name_input) in
  if negb (PyStr.is_empty standardized_name) then
    let matching_skyscrapers := filter (name_matches standardized_name) df in
    match matching_skyscrapers with
    | r :: _ => Located (city r)
    | [] => NotFound
    end
  else EnterAName.

(** *** Mean height by completion year (line 99) *)

Fixpoint insert_key (k : cell) (ks : list cell) : list cell :=
  match ks with
  | [] => [k]
  | h :: t =>
      if Cell.eqb k h then ks
      else if Cell.leb k h then k :: ks
      else h :: insert_key k t
  end.

(** The group keys: the distinct cells of the year column, missing ones
    left out, in key order. *)
Definition group_keys (f : frame) : list cell :=
  fold_right (fun r ks => if Cell.notna (year r) then insert_key (year r) ks
                          else ks) [] f.

Definition non_nan (xs : list (option Q)) : list Q :=
  flat_map (fun x => match x with Some q => [q] | None => [] end) xs.

Definition Qsum (xs : list Q) : Q :=
  fold_right Qplus 0 xs.

(** [series.mean()]: missing values are skipped; no value gives NaN. *)
Definition mean (xs : list (option Q)) : option Q :=
  match non_nan xs with
  | [] => None
  | vs => Some (Qsum vs / inject_Z (Z.of_nat (List.length vs)))
  end.

Definition group (k : cell) (f : frame) : frame :=
  filter (fun r => Cell.eqb (year r) k) f.

(** [f.groupby('status.completed.year')['statistics.height'].mean()] *)
Definition avg_height (f : frame) : list (cell * option Q) :=
  map (fun k => (k, mean (map height (group k f)))) (group_keys f).

(** Reading a series at a label. *)
Fixpoint series_get {A} (k : cell) (s : list (cell * A)) : option A :=
  match s with
  | [] => None
  | (k', v) :: t => if Cell.eqb k k' then Some v else series_get k t
  end.

(** ** The script, top to bottom

    One run of the script (the framework runs it again from the first line
    on every interaction).  What the run prints and draws is collected in
    a [world]; a run ends with the names the module has bound or with the
    exception that stopped it.  The page configuration, the slider and
    the labels of the axes draw nothing that a property below reads and
    are left out. *)

Inductive page :=
| CompletedSkyscrapers
| TallestSkyscrapers
| MapOfSkyscrapers.

(** The widgets' values in this run. *)
Record ui := mkUi {
  page_choice : page;                (* st.sidebar.radio *)
  city_pick : option nat;            (* st.sidebar.selectbox: an index into
                                        the options, or the default one *)
  skyscraper_name_input : string;    (* st.sidebar.text_input *)
  height_range : Z * Z               (* st.slider, default (300, 600) *)
}.

Definition display_row : Type := option string * string * cell.

Inductive widget :=
| SidebarTitle (s : string)
| SidebarWrite (s : string)
| Title (s : string)
| Subheader (s : string)
| Markdown (s : string)
| PageWrite (s : string)
| TableOf (rows : list display_row)
| BarChart (title : string) (series : list (cell * option Q))
| BarH (title : string) (bars : list (option string * option Q))
| MapOf (points : list (option Q * option Q)).

Record world := mkWorld {
  stdout : list string;
  screen : list widget
}.

Definition M (A : Type) : Type := world -> world * (exn + A).

Definition ret {A} (a : A) : M A := fun w => (w, inr a).

Definition bind {A B} (m : M A) (k : A -> M B) : M B :=
  fun w =>
    match m w with
    | (w', inr a) => k a w'
    | (w', inl e) => (w', inl e)
    end.

Definition raise {A} (e : exn) : M A := fun w => (w, inl e).

Definition py_print (s : string) : M unit :=
  fun w => (mkWorld (stdout w ++ [s]) (screen w), inr tt).

Definition emit (x : widget) : M unit :=
  fun w => (mkWorld (stdout w) (screen w ++ [x]), inr tt).

Notation "x <- m ;; k" := (bind m (fun x => k))
  (at level 61, m at next level, right associativity).
Notation "m ;;; k" := (bind m (fun _ => k))
  (at level 61, right associativity).

(** Lines 9 to 12: only a missing file is caught, and the handler binds
    nothing. *)
Definition load_block (src : source) : M (option frame) :=
  match read_csv src with
  | inr f => ret (Some f)
  | inl FileNotFoundError => py_print "File not found." ;;; ret None
  | inl e => raise e
  end.

(** Reading the global [df]. *)
Definition read_df (binding : option frame) : M frame :=
  match binding with
  | Some f => ret f
  | None => raise (NameError "df")
  end.

(** [sorted({...})] on strings. *)
Fixpoint insert_str (s : string) (l : list string) : list string :=
  match l with
  | [] => [s]
  | h :: t =>
      if String.eqb s h then l
      else if String.leb s h then s :: l
      else h :: insert_str s t
  end.

Definition city_options (df : frame) : list string :=
  "ALL CITIES"
    :: fold_right insert_str [] (map (fun r => Cell.astype_str (city r)) df).

Fixpoint index_of (s : string) (l : list string) : option nat :=
  match l with
  | [] => None
  | h :: t =>
      if String.eqb s h then Some 0%nat
      else option_map S (index_of s t)
  end.

Definition default_index (options : list string) : nat :=
  match index_of "Chicago" options with Some i => i | None => 0%nat end.

(** The three columns of the display tables, the height formatted. *)
Definition format_cell (x : option Q) : string :=
  match x with Some q => Fmt.formatHeight q | None => "nan" end.

Definition display (f : frame) : list display_row :=
  map (fun r => (name r, format_cell (height r), year r)) f.

Definition str_of_nat (n : nat) : string := PyStr.str_of_Z (Z.of_nat n).

Definition city_or (c alt : string) : string :=
  if String.eqb c "ALL CITIES" then alt else c.

Definition sidebar_search (df : frame) (input : string) : M unit :=
  match find_city df input with
  | Located c =>
      emit (SidebarWrite ("The skyscraper '" ++ input ++ "' is located in "
                            ++ Cell.astype_str c ++ "."))
  | NotFound =>
      emit (SidebarWrite ("Sorry, no skyscraper named '" ++ input
                            ++ "' found."))
  | EnterAName =>
      emit (SidebarWrite "Enter a skyscraper name to find its city.")
  end.

(** The names bound when the run ends: the two module-level frames and
    the frames of the page that was drawn. *)
Record namespace := mkNamespace {
  ns_df : frame;
  ns_completed_df : frame;
  ns_page_frames : list (string * frame)
}.

(** Lines 100 to 106: [series.plot(kind='bar', ax=ax)] and
    [st.pyplot(fig)].  The plot of a series without an entry raises
    [IndexError] when it sets the limits of the axis; nothing is drawn
    then. *)
Definition plot_bar (title : string) (series : list (cell * option Q))
  : M unit :=
  match series with
  | [] => raise IndexError
  | _ :: _ => emit (BarChart title series)
  end.

Definition no_name (r : row) : bool :=
  match name r with None => true | Some _ => false end.

(** The name column of a frame holds text beside missing values. *)
Definition names_mixed (f : frame) : bool :=
  existsb no_name f && existsb (fun r => negb (no_name r)) f.

(** Lines 138 to 144 and 173 to 178: [ax.barh(f['name'],
    f['statistics.height'])] and [st.pyplot(fig)].  The names are the
    categories of the axis: a missing value among names that are text
    raises [TypeError], and nothing is drawn then. *)
Definition barh (title : string) (f : frame) : M unit :=
  if names_mixed f then raise TypeError
  else emit (BarH title (map (fun r => (name r, height r)) f)).

Definition no_coordinate (r : row) : bool :=
  match latitude r, longitude r with
  | Some _, Some _ => false
  | _, _ => true
  end.

(** Line 198: [st.map(f[['latitude', 'longitude']])], which refuses a
    frame with a missing latitude or longitude. *)
Definition st_map (f : frame) : M unit :=
  if existsb no_coordinate f then raise StreamlitAPIException
  else emit (MapOf (map (fun r => (latitude r, longitude r)) f)).

Definition page_one (cdf : frame) (c : string) : M (list (string * frame)) :=
  emit (Title (if String.eqb c "ALL CITIES" then "Completed Skyscrapers"
               else "Completed Skyscrapers in " ++ c)) ;;;
  emit (Markdown "[Click here to view the bar chart](#bar-chart)") ;;;
  let filtered := filtered_df cdf c in
  emit (TableOf (display filtered)) ;;;
  emit (Markdown "<a id='bar-chart'></a>") ;;;
  plot_bar ("Average Skyscraper Height by Completion Year in "
              ++ city_or c "All Cities")
           (avg_height filtered) ;;;
  ret [("filtered_df", filtered)].

Definition page_two (df : frame) (c : string) : M (list (string * frame)) :=
  emit (Title (if String.eqb c "ALL CITIES" then "Tallest Skyscrapers"
               else "Tallest Skyscrapers in " ++ c)) ;;;
  emit (Subheader "Top 5 Tallest Skyscrapers") ;;;
  let '(top_skyscrapers_default, skyscraper_count_default) :=
    get_tallest_skyscrapers df c default_top_n in
  emit (PageWrite ("Top " ++ str_of_nat skyscraper_count_default
                     ++ " skyscrapers in " ++ c ++ ":")) ;;;
  let top_skyscrapers_default :=
    setitem_year_replaced top_skyscrapers_default in
  emit (TableOf (display top_skyscrapers_default)) ;;;
  barh ("Top " ++ str_of_nat (List.length top_skyscrapers_default)
          ++ " Tallest Skyscrapers in " ++ city_or c "All Cities")
       top_skyscrapers_default ;;;
  emit (Subheader "Top 20 Tallest Skyscrapers") ;;;
  let '(top_20_skyscrapers, skyscraper_count_20) :=
    get_tallest_skyscrapers df c 20 in
  emit (PageWrite ("Top " ++ str_of_nat skyscraper_count_default
                     ++ " skyscrapers in " ++ c ++ ":")) ;;;
  let top_20_skyscrapers := setitem_year_replaced top_20_skyscrapers in
  emit (TableOf (display top_20_skyscrapers)) ;;;
  barh ("Top 20 Tallest Skyscrapers in " ++ city_or c "All Cities")
       top_20_skyscrapers ;;;
  ret [("top_skyscrapers_default", top_skyscrapers_default);
       ("top_20_skyscrapers", top_20_skyscrapers)].

Definition page_three (df : frame) (c : string) (range : Z * Z)
  : M (list (string * frame)) :=
  emit (Title (if String.eqb c "ALL CITIES" then "Map of Skyscrapers"
               else "Map of Skyscrapers in " ++ c)) ;;;
  let map_filtered := map_filtered_df df c (fst range) (snd range) in
  emit (PageWrite ("Displaying skyscrapers in " ++ city_or c "all cities"
                 ++ " within selected height range.")) ;;;
  st_map map_filtered ;;;
  ret [("map_filtered_df", map_filtered)].

Section Script.

(** The library's sorting of line 33: the function from the frame to the
    frame sorted by height, tallest first. *)
Variable sort_values : frame -> frame.

Definition script (src : source) (u : ui) : M namespace :=
  binding <- load_block src ;;
  df <- read_df binding ;;
  let df := clean df in
  let df := sort_values df in
  let cdf := completed_df df in
  emit (SidebarTitle "Navigation") ;;;
  let options := city_options df in
  let c := match city_pick u with
           | Some i => nth i options "ALL CITIES"
           | None => nth (default_index options) options "ALL CITIES"
           end in
  sidebar_search df (skyscraper_name_input u) ;;;
  frames <- match page_choice u with
            | CompletedSkyscrapers => page_one cdf c
            | TallestSkyscrapers => page_two df c
            | MapOfSkyscrapers => page_three df c (height_range u)
            end ;;
  ret (mkNamespace df cdf frames).

Definition run (src : source) (u : ui) : world * (exn + namespace) :=
  script src u (mkWorld [] []).

End Script.

(** * Vocabulary of the properties *)

(** What one leaderboard of page two holds: the rows of the query with
    the year column replaced, and their number. *)
Definition leaderboard (df : frame) (c : string) (top_n : Z)
  : frame * nat :=
  (setitem_year_replaced (fst (get_tallest_skyscrapers df c top_n)),
   snd (get_tallest_skyscrapers df c top_n)).

(** Every character of [s] satisfies [p]. *)
Fixpoint all_chars (p : ascii -> bool) (s : string) : bool :=
  match s with
  | EmptyString => true
  | String c t => p c && all_chars p t
  end.

Definition is_digit (c : ascii) : bool :=
  let n := nat_of_ascii c in (48 <=? n)%nat && (n <=? 57)%nat.

(** What is left of the two-decimal text once the zeros and the point
    are stripped. *)
Definition stripped2 (m : Z) : string :=
  if (m mod 100 =? 0)%Z then PyStr.str_of_Z (m / 100)
  else if (m mod 10 =? 0)%Z then
    PyStr.str_of_Z (m / 100) ++ "."
      ++ String (Fmt.digit_char ((m / 10) mod 10)) EmptyString
  else Fmt.fixed2 m.

(** The load invariant on one row: a positive height and a city that is a
    string with at least one character. *)
Definition store_ok (r : row) : Prop :=
  (exists h, height r = Some h /\ 0 < h)
  /\ (exists s, city r = CStr s /\ s <> "").

(** The frame a query draws its rows from. *)
Definition available (df : frame) (c : string) : frame :=
  if String.eqb c "ALL CITIES" then df else filter (in_city c) df.

(** Two towers of one height, and a tower whose completion year is not
    known. *)
Definition tower_a : row :=
  mkRow (Some "Aon Center") (CStr "Chicago") None None (Some 346)
        (Some true) (CInt 1973).

Definition tower_b : row :=
  mkRow (Some "Bank Tower") (CStr "Boston") None None (Some 346)
        (Some true) (CInt 1990).

Definition tower_0 : row :=
  mkRow (Some "Old Hall") (CStr "Chicago") None None (Some 100)
        (Some true) (CInt 0).

(** A second tower that bears the name of [tower_a], in another city. *)
Definition tower_a_boston : row :=
  mkRow (Some "AON CENTER") (CStr "Boston") None None (Some 200)
        (Some true) (CInt 2001).

(** The three records of the specification's example of the yearly
    mean. *)
Definition yearly_example : frame :=
  [ mkRow (Some "x") (CStr "Chicago") None None (Some 100) (Some true)
          (CInt 2000);
    mkRow (Some "y") (CStr "Chicago") None None (Some 200) (Some true)
          (CInt 2000);
    mkRow (Some "z") (CStr "Boston") None None (Some 300) (Some true)
          (CInt 2010) ].

(** A series with its values in lowest terms. *)
Definition reduced (s : list (cell * option Q)) : list (cell * option Q) :=
  map (fun kv => (fst kv, option_map Qred (snd kv))) s.

(** The city the select box gives in a run. *)
Definition selected_city (df : frame) (u : ui) : string :=
  match city_pick u with
  | Some i => nth i (city_options df) "ALL CITIES"
  | None => nth (default_index (city_options df)) (city_options df)
                "ALL CITIES"
  end.

(** A run that draws page two, and one that draws page one, with the
    other widgets left as they start. *)
Definition ui_page_two : ui :=
  mkUi TallestSkyscrapers None "" (300%Z, 600%Z).





(** A table with two rows the load drops (a city that reads as missing, a
    height of 0) and a city column cell that is a number. *)
Definition raw_sample : frame :=
  [ tower_0;
    mkRow (Some "Ghost") (CStr "") None None (Some 50) (Some true)
          (CInt 1999);
    mkRow (Some "Flat") (CStr "Boston") None None (Some 0) (Some false)
          (CInt 0);
    mkRow (Some "Zip") (CInt 60606) None None (Some 500) (Some false)
          (CInt 2020) ].

Definition sorted_sample : frame :=
  [ mkRow (Some "Zip") (CStr "60606") None None (Some 500) (Some false)
          (CInt 2020);
    tower_0 ].

(** The line page two writes above a table. *)
Definition top_line (count : nat) (c : string) : string :=
  "Top " ++ str_of_nat count ++ " skyscrapers in " ++ c ++ ":".

(** The texts written on the page, in order. *)
Definition captions (ws : list widget) : list string :=
  flat_map (fun x => match x with PageWrite t => [t] | _ => [] end) ws.

(** [a] stands strictly before [b] among the group labels. *)
Definition label_before (a b : cell) : Prop :=
  Cell.leb a b = true /\ a <> b.

(** * Properties *)

(** ** Strings *)

Section StringFacts.

Variable p : ascii -> bool.

Lemma rstrip_by_fixed (s : string) :
  all_chars (fun c => negb (p c)) s = true -> PyStr.rstrip_by p s = s.
Proof.
  induction s as [|c t IH]; simpl; [reflexivity|].
  intros H. apply andb_true_iff in H as [Hc Ht].
  apply negb_true_iff in Hc. rewrite Hc, (IH Ht). reflexivity.
Qed.

Lemma rstrip_by_app_keep (a b : string) :
  PyStr.rstrip_by p b <> "" ->
  PyStr.rstrip_by p (a ++ b) = a ++ PyStr.rstrip_by p b.
Proof.
  intros Hb. induction a as [|c t IH]; simpl; [reflexivity|].
  rewrite IH.
  destruct (t ++ PyStr.rstrip_by p b) eqn:E.
  - destruct t; simpl in E; [contradiction | discriminate].
  - simpl. rewrite andb_false_r. reflexivity.
Qed.

Lemma rstrip_by_app_drop (a b : string) :
  PyStr.rstrip_by p b = "" ->
  PyStr.rstrip_by p (a ++ b) = PyStr.rstrip_by p a.
Proof.
  intros Hb. induction a as [|c t IH]; simpl; [exact Hb|].
  rewrite IH. reflexivity.
Qed.

Lemma rstrip_by_all (s : string) :
  all_chars p s = true -> PyStr.rstrip_by p s = "".
Proof.
  induction s as [|c t IH]; simpl; [reflexivity|].
  intros H. apply andb_true_iff in H as [Hc Ht].
  rewrite Hc, (IH Ht). reflexivity.
Qed.

End StringFacts.

Lemma string_of_uint_digits (d : Decimal.uint) :
  all_chars is_digit (NilEmpty.string_of_uint d) = true.
Proof. induction d; simpl; auto. Qed.

Lemma NilZero_string_of_uint_digits (d : Decimal.uint) :
  all_chars is_digit (NilZero.string_of_uint d) = true
  /\ NilZero.string_of_uint d <> "".
Proof.
  destruct d; simpl; split;
    try reflexivity; try discriminate; apply string_of_uint_digits.
Qed.

Lemma str_of_Z_digits (n : Z) :
  (0 <= n)%Z ->
  all_chars is_digit (PyStr.str_of_Z n) = true /\ PyStr.str_of_Z n <> "".
Proof.
  intros Hn. unfold PyStr.str_of_Z.
  destruct n as [|q|q]; [split; [reflexivity | discriminate] | | lia].
  simpl. apply NilZero_string_of_uint_digits.
Qed.

Lemma str_of_Z_nonempty (n : Z) : PyStr.str_of_Z n <> "".
Proof.
  destruct n as [|q|q].
  - discriminate.
  - apply (str_of_Z_digits (Zpos q)); lia.
  - unfold PyStr.str_of_Z. simpl. discriminate.
Qed.

Lemma all_chars_impl (p q : ascii -> bool) (s : string) :
  (forall c, p c = true -> q c = true) ->
  all_chars p s = true -> all_chars q s = true.
Proof.
  intros Hpq. induction s as [|c t IH]; simpl; [reflexivity|].
  intros H. apply andb_true_iff in H as [Hc Ht].
  rewrite (Hpq _ Hc), (IH Ht). reflexivity.
Qed.

Lemma digit_not_dot (c : ascii) :
  is_digit c = true -> negb (PyStr.mem c ".") = true.
Proof.
  intros H. simpl. rewrite orb_false_r. apply negb_true_iff.
  apply Ascii.eqb_neq. intros ->. discriminate H.
Qed.

(** ** Formatting a height *)

Section FormatHeight.

Import Fmt.

Lemma round_half_even_nonneg (x : Q) :
  (0 <= Qnum x)%Z -> (0 <= round_half_even x)%Z.
Proof.
  intros Hx. unfold round_half_even.
  assert (0 <= Qnum x / Zpos (Qden x))%Z by (apply Z.div_pos; lia).
  destruct (2 * (Qnum x mod Zpos (Qden x)) ?= Zpos (Qden x))%Z;
    [destruct (Z.even _)| |]; lia.
Qed.

Lemma Qabs_scaled_nonneg (x : Q) : (0 <= Qnum (Qabs x * 100))%Z.
Proof.
  destruct x as [n d]. simpl. lia.
Qed.

Lemma strip_two_digits (a : string) (d1 d2 : Z) :
  all_chars is_digit a = true -> a <> "" ->
  (0 <= d1 <= 9)%Z -> (0 <= d2 <= 9)%Z ->
  PyStr.rstrip "."
    (PyStr.rstrip "0"
       (a ++ "." ++ String (digit_char d1)
                      (String (digit_char d2) EmptyString)))
  = if (d1 =? 0)%Z && (d2 =? 0)%Z then a
    else if (d2 =? 0)%Z then a ++ "." ++ String (digit_char d1) EmptyString
    else a ++ "." ++ String (digit_char d1)
                      (String (digit_char d2) EmptyString).
Proof.
  intros Ha Hne H1 H2. unfold PyStr.rstrip.
  assert (Hdot : PyStr.rstrip_by (fun c => PyStr.mem c ".") a = a).
  { apply rstrip_by_fixed.
    apply (all_chars_impl is_digit); [apply digit_not_dot | exact Ha]. }
  assert (C1 : (d1 = 0 \/ d1 = 1 \/ d1 = 2 \/ d1 = 3 \/ d1 = 4 \/ d1 = 5
               \/ d1 = 6 \/ d1 = 7 \/ d1 = 8 \/ d1 = 9)%Z) by lia.
  assert (C2 : (d2 = 0 \/ d2 = 1 \/ d2 = 2 \/ d2 = 3 \/ d2 = 4 \/ d2 = 5
               \/ d2 = 6 \/ d2 = 7 \/ d2 = 8 \/ d2 = 9)%Z) by lia.
  repeat (destruct C1 as [C1|C1]); repeat (destruct C2 as [C2|C2]);
    subst d1 d2;
    (rewrite rstrip_by_app_keep by (vm_compute; discriminate));
    cbn;
    first
      [ rewrite rstrip_by_app_drop by reflexivity; exact Hdot
      | rewrite rstrip_by_app_keep by (vm_compute; discriminate);
        reflexivity ].
Qed.

Lemma formatHeight_shape (x : Q) :
  formatHeight x
  = (if is_negative x then "-" else "")
      ++ stripped2 (round_half_even (Qabs x * 100)).
Proof.
  unfold formatHeight, format_2f.
  set (m := round_half_even (Qabs x * 100)).
  assert (Hm : (0 <= m)%Z)
    by (apply round_half_even_nonneg, Qabs_scaled_nonneg).
  assert (Hq : (0 <= m / 100)%Z) by (apply Z.div_pos; lia).
  destruct (str_of_Z_digits (m / 100) Hq) as [Hd Hne].
  assert (Hbody :
    PyStr.rstrip "." (PyStr.rstrip "0" (fixed2 m)) = stripped2 m).
  { unfold fixed2, stripped2.
    pose proof (Z.mod_pos_bound (m / 10) 10 ltac:(lia)) as B1.
    pose proof (Z.mod_pos_bound m 10 ltac:(lia)) as B2.
    rewrite (strip_two_digits _ _ _ Hd Hne) by lia.
    destruct (m mod 100 =? 0)%Z eqn:E100, (m mod 10 =? 0)%Z eqn:E10,
             ((m / 10) mod 10 =? 0)%Z eqn:E1;
      cbn [andb]; try reflexivity;
      rewrite ?Z.eqb_eq, ?Z.eqb_neq in *; exfalso;
      revert E100 E10 E1; clear; intros;
      pose proof (Z.div_mod m 10 ltac:(lia));
      pose proof (Z.div_mod (m / 10) 10 ltac:(lia));
      pose proof (Z.div_mod m 100 ltac:(lia));
      pose proof (Z.mod_pos_bound m 10 ltac:(lia));
      pose proof (Z.mod_pos_bound (m / 10) 10 ltac:(lia));
      pose proof (Z.mod_pos_bound m 100 ltac:(lia));
      lia. }
  assert (Hstr : stripped2 m <> "").
  { unfold stripped2, fixed2.
    destruct (m mod 100 =? 0)%Z; [exact Hne|].
    destruct (PyStr.str_of_Z (m / 100)); [contradiction|].
    destruct (m mod 10 =? 0)%Z; discriminate. }
  destruct (is_negative x); [|exact Hbody].
  unfold PyStr.rstrip in *.
  assert (H0 : PyStr.rstrip_by (fun c => PyStr.mem c "0") (fixed2 m) <> "").
  { intros E. rewrite E in Hbody. simpl in Hbody. congruence. }
  rewrite (rstrip_by_app_keep _ "-" _ H0).
  rewrite rstrip_by_app_keep by (rewrite Hbody; exact Hstr).
  rewrite Hbody. reflexivity.
Qed.

End FormatHeight.

(** C5.  The height lambda writes two decimals and then strips the
    trailing zeros and a trailing point, so the text that is left is the
    integer part alone, the integer part with one decimal, or all of the
    two-decimal text; 300.0, 300.50 and 300.25 give "300", "300.5" and
    "300.25", character for character. *)
Theorem formatHeight_two_decimals_stripped :
  (forall x : Q,
      Fmt.formatHeight x
      = (if Fmt.is_negative x then "-" else "")
          ++ stripped2 (Fmt.round_half_even (Qabs x * 100)))
  /\ Fmt.format_2f 300 = "300.00"
  /\ Fmt.formatHeight 300 = "300"
  /\ Fmt.formatHeight (30050 # 100) = "300.5"
  /\ Fmt.formatHeight (30025 # 100) = "300.25".
Proof.
  split; [exact formatHeight_shape|].
  repeat split; vm_compute; reflexivity.
Qed.

Lemma tiny_rounds_to_zero (x : Q) :
  0 < x -> x < 5 # 1000 -> Fmt.round_half_even (Qabs x * 100) = 0%Z.
Proof.
  destruct x as [n d]. unfold Qlt. simpl. intros Hpos Hlt.
  unfold Fmt.round_half_even. simpl Qnum. simpl Qden.
  rewrite Pos.mul_1_r.
  assert (Hn : (0 < n)%Z) by lia.
  rewrite (Z.abs_eq n) by lia.
  assert (Hsmall : (2 * (n * 100) < Zpos d)%Z) by lia.
  rewrite Z.div_small by lia.
  rewrite Z.mod_small by lia.
  apply Z.compare_lt_iff in Hsmall. rewrite Hsmall. reflexivity.
Qed.

(** C10, as amended.  A height above 0 and below 0.005 is written "0.00",
    and stripping leaves "0": the zeros after the point go, the point
    goes, and the zero before the point stays. *)
Theorem formatHeight_below_half_cent :
  forall x : Q,
    0 < x -> x < 5 # 1000 ->
    Fmt.format_2f x = "0.00" /\ Fmt.formatHeight x = "0".
Proof.
  intros x Hpos Hlt.
  assert (Hneg : Fmt.is_negative x = false).
  { unfold Fmt.is_negative. apply Z.ltb_ge.
    destruct x as [n d]. unfold Qlt in Hpos. simpl in *. lia. }
  unfold Fmt.formatHeight, Fmt.format_2f.
  rewrite Hneg, (tiny_rounds_to_zero x Hpos Hlt).
  split; reflexivity.
Qed.

Lemma formatHeight_below_half_cent_witness :
  Fmt.format_2f (1 # 1000) = "0.00" /\ Fmt.formatHeight (1 # 1000) = "0".
Proof.
  apply (formatHeight_below_half_cent (1 # 1000)); reflexivity.
Defined.

(** C10, as stated, fails at 0.001: the cell is not blank. *)
Lemma formatHeight_tiny_not_blank :
  0 < 1 # 1000
  /\ 1 # 1000 < 5 # 1000
  /\ Fmt.formatHeight (1 # 1000) = "0"
  /\ Fmt.formatHeight (1 # 1000) <> "".
Proof.
  repeat split; try reflexivity. vm_compute. discriminate.
Qed.

(** ** Lists and orders *)

Section ListFacts.

Context {A : Type}.

Lemma Forall_firstn (P : A -> Prop) (n : nat) (l : list A) :
  Forall P l -> Forall P (firstn n l).
Proof.
  intros H. revert n. induction H as [|x l Hx _ IH]; intros [|n]; simpl;
    constructor; auto.
Qed.

Lemma Forall_filter (P : A -> Prop) (f : A -> bool) (l : list A) :
  Forall P l -> Forall P (filter f l).
Proof.
  induction 1 as [|x l Hx _ IH]; simpl; [constructor|].
  destruct (f x); [constructor|]; assumption.
Qed.

Lemma StronglySorted_firstn (R : A -> A -> Prop) (n : nat) (l : list A) :
  StronglySorted R l -> StronglySorted R (firstn n l).
Proof.
  intros H. revert n. induction H as [|x l _ IH Hx]; intros [|n]; simpl;
    constructor; auto using Forall_firstn.
Qed.

Lemma StronglySorted_filter (R : A -> A -> Prop) (f : A -> bool)
      (l : list A) :
  StronglySorted R l -> StronglySorted R (filter f l).
Proof.
  induction 1 as [|x l _ IH Hx]; simpl; [constructor|].
  destruct (f x); [constructor|]; auto using Forall_filter.
Qed.

Lemma StronglySorted_app_cross (R : A -> A -> Prop) (a b : list A) :
  StronglySorted R (a ++ b) ->
  forall x y, In x a -> In y b -> R x y.
Proof.
  induction a as [|h t IH]; simpl; intros S x y Hx Hy; [contradiction|].
  apply StronglySorted_inv in S as [St Hh].
  destruct Hx as [<-|Hx].
  - rewrite Forall_forall in Hh. apply Hh, in_or_app. right. exact Hy.
  - exact (IH St x y Hx Hy).
Qed.

Lemma firstn_all_le (n : nat) (l : list A) :
  (List.length l <= n)%nat -> firstn n l = l.
Proof.
  revert n. induction l as [|x l IH]; intros [|n]; simpl; intros H;
    try reflexivity; try lia.
  f_equal. apply IH. lia.
Qed.

End ListFacts.

(** ** The descending order *)

Lemma desc_ok_refl (a : option Q) : desc_ok a a.
Proof. destruct a; simpl; [apply Qle_refl | exact I]. Qed.

(** ** The leaderboard query *)

Lemma head_positive (n : Z) (f : frame) :
  (0 < n)%Z -> head n f = firstn (Z.to_nat n) f.
Proof.
  intros Hn. unfold head.
  destruct (0 <=? n)%Z eqn:E; [reflexivity|]. apply Z.leb_gt in E. lia.
Qed.

Lemma get_tallest_positive (df : frame) (c : string) (n : Z) :
  (0 < n)%Z ->
  get_tallest_skyscrapers df c n
  = (firstn (Z.to_nat n) (available df c),
     List.length (firstn (Z.to_nat n) (available df c))).
Proof.
  intros Hn. unfold get_tallest_skyscrapers, available.
  destruct (String.eqb c "ALL CITIES"); rewrite head_positive by exact Hn;
    reflexivity.
Qed.

Lemma in_city_spec (c : string) (r : row) :
  in_city c r = true <-> city r = CStr c.
Proof.
  unfold in_city, Cell.eq_str. destruct (city r) as [|z|s];
    try (split; [discriminate | congruence]).
  rewrite String.eqb_eq. split; congruence.
Qed.

(** C6.  For a positive [top_n] the query returns the rows together with
    their number; when [top_n] is more than the rows there are for the
    city, all of them come back and the count is their number. *)
Theorem get_tallest_count_is_len :
  forall (df : frame) (c : string) (top_n : Z),
    (0 < top_n)%Z ->
    let result := get_tallest_skyscrapers df c top_n in
    snd result = List.length (fst result)
    /\ fst result = firstn (Z.to_nat top_n) (available df c)
    /\ List.length (fst result)
       = Nat.min (Z.to_nat top_n) (List.length (available df c))
    /\ ((Z.of_nat (List.length (available df c)) < top_n)%Z ->
        fst result = available df c
        /\ snd result = List.length (available df c)).
Proof.
  intros df c n Hn. cbv zeta. rewrite (get_tallest_positive df c n Hn).
  cbn [fst snd]. repeat split.
  - apply length_firstn.
  - apply firstn_all_le. lia.
  - rewrite firstn_all_le by lia. reflexivity.
Qed.

Lemma get_tallest_count_is_len_witness :
  let result := get_tallest_skyscrapers [tower_a; tower_b] "Chicago" 5 in
  snd result = List.length (fst result)
  /\ fst result = firstn (Z.to_nat 5) (available [tower_a; tower_b] "Chicago")
  /\ List.length (fst result)
     = Nat.min (Z.to_nat 5)
               (List.length (available [tower_a; tower_b] "Chicago"))
  /\ ((Z.of_nat (List.length (available [tower_a; tower_b] "Chicago")) < 5)%Z
      -> fst result = available [tower_a; tower_b] "Chicago"
         /\ snd result = List.length (available [tower_a; tower_b] "Chicago")).
Proof.
  apply (get_tallest_count_is_len [tower_a; tower_b] "Chicago" 5).
  reflexivity.
Defined.

Lemma filter_same_city (p : row -> bool) (c : string) (df : frame) :
  (forall r, p r = true <-> city r = CStr c) ->
  filter p df = filter (in_city c) df.
Proof.
  intros Hp. apply filter_ext. intros r.
  destruct (p r) eqn:E1, (in_city c r) eqn:E2; try reflexivity.
  - apply Hp, in_city_spec in E1. congruence.
  - apply in_city_spec, Hp in E2. congruence.
Qed.

Lemma in_firstn_or_beyond (n : nat) (l : frame) (r : row) :
  In r l ->
  In r (firstn n l)
  \/ (List.length (firstn n l) = n /\ In r (skipn n l)).
Proof.
  intros H. rewrite <- (firstn_skipn n l) in H.
  apply in_app_or in H as [H|H]; [left; exact H|].
  right. split; [|exact H].
  rewrite length_firstn. apply Nat.min_l.
  destruct (Nat.le_gt_cases n (List.length l)) as [Hle|Hgt]; [exact Hle|].
  rewrite skipn_all2 in H by lia. contradiction.
Qed.

(** C2.  The store is sorted tallest first: [df] holds the rows of the
    store [f] in descending order of height.  For a positive [top_n] the
    query for "ALL CITIES" returns the first [top_n] rows of the whole
    store, completed or not, and no row left out is taller than a row
    returned.  For another city it returns the first [top_n] of the rows
    whose city is that city, whatever test tells these rows from the
    others; the rows returned are rows of the store, lie in the city and
    stand tallest first, and a row of the city that is not returned is
    no taller than any of the [top_n] rows that are. *)
Theorem get_tallest_first_n_of_sorted :
  forall (f df : frame) (c : string) (top_n : Z),
    Permutation f df ->
    height_desc df ->
    (0 < top_n)%Z ->
    let records := fst (get_tallest_skyscrapers df c top_n) in
    (c = "ALL CITIES" ->
       records = firstn (Z.to_nat top_n) df
       /\ Permutation f (records ++ skipn (Z.to_nat top_n) df)
       /\ (forall r r', In r records -> In r' (skipn (Z.to_nat top_n) df) ->
                        desc_ok (height r) (height r')))
    /\ (c <> "ALL CITIES" ->
       (forall p : row -> bool,
           (forall r, p r = true <-> city r = CStr c) ->
           records = firstn (Z.to_nat top_n) (filter p df))
       /\ Forall (fun r => In r f /\ city r = CStr c) records
       /\ height_desc records
       /\ (forall r,
             In r f -> city r = CStr c ->
             In r records
             \/ (List.length records = Z.to_nat top_n
                 /\ Forall (fun x => desc_ok (height x) (height r))
                           records))).
Proof.
  intros f df c n Hperm Hsorted Hn. cbv zeta.
  rewrite (get_tallest_positive df c n Hn). cbn [fst]. unfold available.
  split.
  - intros ->. cbn. repeat split.
    + rewrite firstn_skipn. exact Hperm.
    + apply (StronglySorted_app_cross
               (fun a b => desc_ok (height a) (height b))).
      rewrite firstn_skipn. exact Hsorted.
  - intros Hc. apply String.eqb_neq in Hc. rewrite Hc.
    assert (Hcity : height_desc (filter (in_city c) df))
      by (apply StronglySorted_filter, Hsorted).
    repeat split.
    + intros p Hp. rewrite (filter_same_city p c df Hp). reflexivity.
    + apply Forall_firstn, Forall_forall. intros r Hr.
      apply filter_In in Hr as [Hr Hin]. split.
      * apply (Permutation_in _ (Permutation_sym Hperm)), Hr.
      * apply in_city_spec, Hin.
    + apply StronglySorted_firstn, Hcity.
    + intros r Hr Hrc.
      assert (Hin : In r (filter (in_city c) df)).
      { apply filter_In. split;
          [apply (Permutation_in _ Hperm), Hr | apply in_city_spec, Hrc]. }
      destruct (in_firstn_or_beyond (Z.to_nat n) _ r Hin)
        as [Hfirst|[Hlen Hrest]]; [left; exact Hfirst|].
      right. split; [exact Hlen|].
      apply Forall_forall. intros x Hx.
      apply (StronglySorted_app_cross
               (fun a b => desc_ok (height a) (height b))
               (firstn (Z.to_nat n) (filter (in_city c) df))
               (skipn (Z.to_nat n) (filter (in_city c) df)));
        [rewrite firstn_skipn; exact Hcity | exact Hx | exact Hrest].
Qed.

Lemma get_tallest_first_n_of_sorted_witness :
  (fst (get_tallest_skyscrapers [tower_a; tower_a_boston; tower_0]
                                "ALL CITIES" 2)
   = [tower_a; tower_a_boston]
   /\ Permutation [tower_0; tower_a; tower_a_boston]
                  ([tower_a; tower_a_boston] ++ [tower_0])
   /\ (forall r r',
         In r (fst (get_tallest_skyscrapers
                      [tower_a; tower_a_boston; tower_0] "ALL CITIES" 2)) ->
         In r' [tower_0] ->
         desc_ok (height r) (height r')))
  /\ ((forall p : row -> bool,
         (forall r, p r = true <-> city r = CStr "Chicago") ->
         fst (get_tallest_skyscrapers [tower_a; tower_a_boston; tower_0]
                                      "Chicago" 1)
         = firstn 1 (filter p [tower_a; tower_a_boston; tower_0]))
      /\ Forall (fun r => In r [tower_0; tower_a; tower_a_boston]
                          /\ city r = CStr "Chicago")
                [tower_a]
      /\ height_desc [tower_a]
      /\ (forall r,
            In r [tower_0; tower_a; tower_a_boston] ->
            city r = CStr "Chicago" ->
            In r [tower_a]
            \/ (List.length [tower_a] = 1%nat
                /\ Forall (fun x => desc_ok (height x) (height r))
                          [tower_a]))).
Proof.
  assert (Hperm : Permutation [tower_0; tower_a; tower_a_boston]
                              [tower_a; tower_a_boston; tower_0])
    by apply (Permutation_cons_append [tower_a; tower_a_boston] tower_0).
  assert (Hsorted : height_desc [tower_a; tower_a_boston; tower_0])
    by (repeat constructor; simpl; discriminate).
  split.
  - exact (proj1 (get_tallest_first_n_of_sorted
                    [tower_0; tower_a; tower_a_boston]
                    [tower_a; tower_a_boston; tower_0]
                    "ALL CITIES" 2 Hperm Hsorted eq_refl) eq_refl).
  - apply (proj2 (get_tallest_first_n_of_sorted
                    [tower_0; tower_a; tower_a_boston]
                    [tower_a; tower_a_boston; tower_0]
                    "Chicago" 1 Hperm Hsorted eq_refl)).
    discriminate.
Defined.

(** ** The load invariant *)

Lemma float_gt_0 (x : option Q) :
  Float.gt x 0 = true -> exists h, x = Some h /\ 0 < h.
Proof.
  destruct x as [q|]; simpl; [|discriminate].
  intros H. exists q. split; [reflexivity|].
  apply negb_true_iff in H. apply Qnot_le_lt. intros Hle.
  apply Qle_bool_iff in Hle. congruence.
Qed.

Lemma na_cell_text (c : cell) (s : string) :
  na_cell c = CStr s -> s <> "".
Proof.
  destruct c as [|z|t]; simpl; try discriminate.
  destruct (is_na_text t) eqn:E; [discriminate|].
  intros [= <-] ->. discriminate E.
Qed.

Lemma astype_str_na_cell (c : cell) :
  Cell.notna (na_cell c) = true -> Cell.astype_str (na_cell c) <> "".
Proof.
  destruct (na_cell c) as [|z|s] eqn:E; simpl; intros H.
  - discriminate.
  - apply str_of_Z_nonempty.
  - exact (na_cell_text c s E).
Qed.

Lemma store_ok_set_year (y : cell) (r : row) :
  store_ok r -> store_ok (set_year y r).
Proof. intros H. exact H. Qed.

Lemma clean_origin (rows : frame) (r : row) :
  In r (clean (map na_row rows)) ->
  exists r0,
    In r0 rows
    /\ keep_row (na_row r0) = true
    /\ r = city_astype_str (na_row r0).
Proof.
  unfold clean. intros H.
  apply in_map_iff in H as [x [<- Hx]].
  apply filter_In in Hx as [Hx Hk].
  apply in_map_iff in Hx as [r0 [<- Hr0]].
  exists r0. auto.
Qed.

Lemma clean_store_ok (rows : frame) :
  Forall store_ok (clean (map na_row rows)).
Proof.
  apply Forall_forall. intros r Hr.
  apply clean_origin in Hr as [r0 [_ [Hk ->]]].
  unfold keep_row in Hk. apply andb_true_iff in Hk as [Hh Hc].
  split.
  - exact (float_gt_0 _ Hh).
  - exists (Cell.astype_str (na_cell (city r0))). split; [reflexivity|].
    apply astype_str_na_cell. exact Hc.
Qed.

Lemma Forall_map_replace_year (P : row -> Prop) (f : frame) :
  (forall r, P r -> P (replace_year r)) ->
  Forall P f -> Forall P (map replace_year f).
Proof.
  intros HP. induction 1; simpl; constructor; auto.
Qed.

Lemma head_Forall (P : row -> Prop) (n : Z) (f : frame) :
  Forall P f -> Forall P (head n f).
Proof.
  intros H. unfold head. destruct (0 <=? n)%Z; apply Forall_firstn, H.
Qed.

Lemma get_tallest_Forall (P : row -> Prop) (df : frame) (c : string)
      (n : Z) :
  Forall P df -> Forall P (fst (get_tallest_skyscrapers df c n)).
Proof.
  intros H. unfold get_tallest_skyscrapers. cbn [fst].
  destruct (String.eqb c "ALL CITIES");
    auto using head_Forall, Forall_filter.
Qed.

Lemma leaderboard_frame (df : frame) (c : string) (n : Z) :
  fst (leaderboard df c n)
  = map replace_year (fst (get_tallest_skyscrapers df c n)).
Proof. reflexivity. Qed.

Lemma find_city_located (df : frame) (input : string) (c : cell) :
  find_city df input = Located c -> exists r, In r df /\ city r = c.
Proof.
  unfold find_city.
  destruct (negb (PyStr.is_empty _)); [|discriminate].
  destruct (filter _ df) as [|r t] eqn:E; [discriminate|].
  intros [= <-]. exists r. split; [|reflexivity].
  assert (Hin : In r (r :: t)) by (left; reflexivity).
  rewrite <- E in Hin. apply filter_In in Hin. tauto.
Qed.

(** C7.  Whatever table is read, every row of the store, before the sort
    and in whatever order the sort puts the rows, has a height above 0 and a city that is a string of
    at least one character, made by [astype(str)] from the cell that was
    read (a number too); and so has every row that the leaderboard query,
    the leaderboard of page two, the completed view, the map filter and
    the name search give back. *)
Theorem store_rows_have_height_and_city :
  forall (rows df : frame),
    Permutation (clean (map na_row rows)) df ->
    Forall store_ok (clean (map na_row rows))
    /\ Forall store_ok df
    /\ (forall r, In r df ->
          exists r0, In r0 rows
                     /\ Cell.notna (na_cell (city r0)) = true
                     /\ city r = CStr (Cell.astype_str (na_cell (city r0))))
    /\ (forall c n, Forall store_ok (fst (get_tallest_skyscrapers df c n)))
    /\ (forall c n, Forall store_ok (fst (leaderboard df c n)))
    /\ (forall c, Forall store_ok (filtered_df (completed_df df) c))
    /\ (forall c lo hi, Forall store_ok (map_filtered_df df c lo hi))
    /\ (forall input c,
          find_city df input = Located c ->
          exists s, c = CStr s /\ s <> "")
    /\ Cell.astype_str (CInt 60606) = "60606".
Proof.
  intros rows df Hperm.
  pose proof (clean_store_ok rows) as Hclean.
  assert (Hdf : Forall store_ok df)
    by (eapply Permutation_Forall; eassumption).
  repeat split; try assumption.
  - intros r Hr. apply (Permutation_in _ (Permutation_sym Hperm)) in Hr.
    apply clean_origin in Hr as [r0 [Hr0 [Hk ->]]].
    exists r0. repeat split; [exact Hr0|].
    unfold keep_row in Hk. apply andb_true_iff in Hk. tauto.
  - intros c n. apply get_tallest_Forall, Hdf.
  - intros c n. rewrite leaderboard_frame.
    apply Forall_map_replace_year; [auto using store_ok_set_year|].
    apply get_tallest_Forall, Hdf.
  - intros c. unfold filtered_df, completed_df, setitem_year_replaced.
    assert (Forall store_ok (map replace_year (filter completed df))).
    { apply Forall_map_replace_year; [auto using store_ok_set_year|].
      apply Forall_filter, Hdf. }
    destruct (String.eqb c "ALL CITIES"); auto using Forall_filter.
  - intros c lo hi. unfold map_filtered_df.
    destruct (String.eqb c "ALL CITIES"); apply Forall_filter, Hdf.
  - intros input c H. apply find_city_located in H as [r [Hr <-]].
    rewrite Forall_forall in Hdf. apply (Hdf r Hr).
Qed.

Lemma store_rows_have_height_and_city_witness :
  let rows := raw_sample in
  let df := sorted_sample in
  Forall store_ok (clean (map na_row rows))
  /\ Forall store_ok df
  /\ (forall r, In r df ->
        exists r0, In r0 rows
                   /\ Cell.notna (na_cell (city r0)) = true
                   /\ city r = CStr (Cell.astype_str (na_cell (city r0))))
  /\ (forall c n, Forall store_ok (fst (get_tallest_skyscrapers df c n)))
  /\ (forall c n, Forall store_ok (fst (leaderboard df c n)))
  /\ (forall c, Forall store_ok (filtered_df (completed_df df) c))
  /\ (forall c lo hi, Forall store_ok (map_filtered_df df c lo hi))
  /\ (forall input c,
        find_city df input = Located c ->
        exists s, c = CStr s /\ s <> "")
  /\ Cell.astype_str (CInt 60606) = "60606".
Proof.
  apply (store_rows_have_height_and_city raw_sample sorted_sample).
  apply perm_swap.
Defined.

(** ** The name search *)

Lemma name_matches_spec (wanted : string) (r : row) :
  name_matches wanted r = true
  <-> exists n, name r = Some n /\ PyStr.lower n = wanted.
Proof.
  unfold name_matches. destruct (name r) as [n|].
  - rewrite String.eqb_eq. split.
    + intros H. exists n. auto.
    + intros [m [[= <-] H]]. exact H.
  - split; [discriminate | intros [m [H _]]; discriminate].
Qed.

Lemma filter_first (f : row -> bool) (pre post : frame) (r : row) :
  Forall (fun x => f x = false) pre -> f r = true ->
  filter f (pre ++ r :: post)%list = r :: filter f post.
Proof.
  intros Hpre Hr. induction Hpre as [|x t Hx _ IH]; simpl.
  - rewrite Hr. reflexivity.
  - rewrite Hx. exact IH.
Qed.

Lemma filter_none (f : row -> bool) (l : frame) :
  Forall (fun x => f x = false) l -> filter f l = [].
Proof.
  induction 1 as [|x t Hx _ IH]; simpl; [reflexivity|].
  rewrite Hx. exact IH.
Qed.

Lemma first_or_none (f : row -> bool) (l : frame) :
  (exists (pre : frame) (r : row) (post : frame),
      l = (pre ++ r :: post)%list
      /\ Forall (fun x => f x = false) pre /\ f r = true)
  \/ Forall (fun x => f x = false) l.
Proof.
  induction l as [|x t [[pre [r [post [-> [Hpre Hr]]]]]|Hnone]].
  - right. constructor.
  - destruct (f x) eqn:E.
    + left. exists [], x, (pre ++ r :: post)%list. auto.
    + left. exists (x :: pre), r, post. auto.
  - destruct (f x) eqn:E.
    + left. exists [], x, t. auto.
    + right. constructor; assumption.
Qed.

Lemma is_empty_spec (s : string) : PyStr.is_empty s = true <-> s = "".
Proof. destruct s; simpl; split; congruence. Qed.

(** C4, as amended.  The input is trimmed and lowered and compared with
    the lowered name of each row.  When the trimmed input is blank the
    search is not made and the sidebar asks for a name.  Otherwise the
    answer is the city of the first row of the store whose name matches,
    also when later rows match too, and "not found" when no row matches;
    one of the two is always the case. *)
Theorem find_city_first_match :
  forall (df : frame) (input : string),
    let wanted := PyStr.lower (PyStr.strip input) in
    (forall r,
        name_matches wanted r = true
        <-> exists n, name r = Some n /\ PyStr.lower n = wanted)
    /\ (wanted = "" -> find_city df input = EnterAName)
    /\ (wanted <> "" ->
        (forall (pre : frame) (r : row) (post : frame),
            df = (pre ++ r :: post)%list ->
            Forall (fun x => name_matches wanted x = false) pre ->
            name_matches wanted r = true ->
            find_city df input = Located (city r))
        /\ (Forall (fun x => name_matches wanted x = false) df ->
            find_city df input = NotFound))
    /\ ((exists (pre : frame) (r : row) (post : frame),
            df = (pre ++ r :: post)%list
            /\ Forall (fun x => name_matches wanted x = false) pre
            /\ name_matches wanted r = true)
        \/ Forall (fun x => name_matches wanted x = false) df)
    /\ find_city [tower_a; tower_a_boston] " Aon Center "
       = Located (CStr "Chicago").
Proof.
  intros df input wanted. split; [apply name_matches_spec|].
  split; [|split; [|split; [apply first_or_none | reflexivity]]].
  - intros H. unfold find_city. fold wanted. rewrite H. reflexivity.
  - intros H. unfold find_city. fold wanted.
    assert (E : PyStr.is_empty wanted = false).
    { destruct (PyStr.is_empty wanted) eqn:E; [|reflexivity].
      apply is_empty_spec in E. contradiction. }
    rewrite E. cbn [negb]. split.
    + intros pre r post -> Hpre Hr.
      rewrite (filter_first _ pre post r Hpre Hr). reflexivity.
    + intros Hnone. rewrite (filter_none _ df Hnone). reflexivity.
Qed.

(** C4, as stated, fails at an input of blanks: no row matches, and the
    result is the request for a name, not "not found". *)
Lemma find_city_blank_input :
  find_city [tower_a] "   " = EnterAName
  /\ filter (name_matches (PyStr.lower (PyStr.strip "   "))) [tower_a] = []
  /\ find_city [tower_a] "   " <> NotFound.
Proof.
  repeat split. vm_compute. discriminate.
Qed.

(** ** The yearly mean *)

Lemma cell_eqb_eq (a b : cell) : Cell.eqb a b = true <-> a = b.
Proof.
  destruct a as [|x|s], b as [|y|t]; simpl;
    try (split; [discriminate | congruence]).
  - tauto.
  - rewrite Z.eqb_eq. split; congruence.
  - rewrite String.eqb_eq. split; congruence.
Qed.

Lemma cell_eqb_refl (a : cell) : Cell.eqb a a = true.
Proof. apply cell_eqb_eq. reflexivity. Qed.

Lemma insert_key_In (k x : cell) (ks : list cell) :
  In k (insert_key x ks) <-> k = x \/ In k ks.
Proof.
  induction ks as [|h t IH]; simpl.
  - intuition congruence.
  - destruct (Cell.eqb x h) eqn:E.
    + apply cell_eqb_eq in E. subst h. simpl. intuition congruence.
    + destruct (Cell.leb x h); simpl; [intuition congruence|].
      rewrite IH. intuition congruence.
Qed.

Lemma group_keys_In (k : cell) (f : frame) :
  In k (group_keys f)
  <-> Cell.notna k = true /\ exists r, In r f /\ year r = k.
Proof.
  induction f as [|x t IH]; simpl.
  - split; [contradiction | intros [_ [r [[] _]]]].
  - destruct (Cell.notna (year x)) eqn:E.
    + rewrite insert_key_In, IH. split.
      * intros [->|[Hk [r [Hr Hy]]]]; [eauto|]. split; eauto.
      * intros [Hk [r [[<-|Hr] Hy]]]; [left; congruence|].
        right. eauto.
    + rewrite IH. split.
      * intros [Hk [r [Hr Hy]]]. eauto.
      * intros [Hk [r [[<-|Hr] Hy]]]; [congruence|]. eauto.
Qed.

Lemma series_get_map {A} (g : cell -> A) (k : cell) (ks : list cell) :
  In k ks -> series_get k (map (fun x => (x, g x)) ks) = Some (g k).
Proof.
  induction ks as [|h t IH]; simpl; [contradiction|].
  destruct (Cell.eqb k h) eqn:E.
  - apply cell_eqb_eq in E. subst h. reflexivity.
  - intros [->|H]; [rewrite cell_eqb_refl in E; discriminate | auto].
Qed.

Lemma series_get_map_none {A} (g : cell -> A) (k : cell) (ks : list cell) :
  ~ In k ks -> series_get k (map (fun x => (x, g x)) ks) = None.
Proof.
  induction ks as [|h t IH]; simpl; [reflexivity|].
  intros H. destruct (Cell.eqb k h) eqn:E.
  - apply cell_eqb_eq in E. subst h. tauto.
  - apply IH. tauto.
Qed.

Lemma existsb_year (k : cell) (f : frame) :
  existsb (fun r => Cell.eqb (year r) k) f = true
  <-> exists r, In r f /\ year r = k.
Proof.
  rewrite existsb_exists. split; intros [r [Hr H]]; exists r;
    (split; [exact Hr|]); apply cell_eqb_eq; exact H.
Qed.

Lemma avg_height_get (f : frame) (k : cell) :
  series_get k (avg_height f)
  = if Cell.notna k && existsb (fun r => Cell.eqb (year r) k) f
    then Some (mean (map height (group k f)))
    else None.
Proof.
  unfold avg_height.
  destruct (Cell.notna k && existsb _ f) eqn:E.
  - apply andb_true_iff in E as [Hk He]. apply existsb_year in He.
    apply (series_get_map (fun x => mean (map height (group x f)))).
    apply group_keys_In. auto.
  - apply (series_get_map_none (fun x => mean (map height (group x f)))).
    intros H. apply group_keys_In in H as [Hk He].
    apply existsb_year in He. rewrite Hk, He in E. discriminate.
Qed.

Lemma non_nan_Some (hs : list Q) : non_nan (map Some hs) = hs.
Proof.
  induction hs as [|h t IH]; simpl; [reflexivity|]. rewrite IH. reflexivity.
Qed.

Lemma mean_of_heights (hs : list Q) :
  hs <> [] ->
  mean (map Some hs)
  = Some (Qsum hs / inject_Z (Z.of_nat (List.length hs))).
Proof.
  intros H. unfold mean. rewrite non_nan_Some.
  destruct hs; [contradiction | reflexivity].
Qed.

Lemma completed_view_origin (df : frame) (c : string) (r : row) :
  In r (filtered_df (completed_df df) c) ->
  exists r0,
    In r0 df /\ completed r0 = true /\ r = replace_year r0.
Proof.
  intros H.
  assert (Hc : In r (completed_df df)).
  { unfold filtered_df in H. destruct (String.eqb c "ALL CITIES");
      [exact H | apply filter_In in H; tauto]. }
  unfold completed_df, setitem_year_replaced in Hc. apply in_map_iff in Hc as [r0 [<- Hr0]].
  apply filter_In in Hr0. exists r0. tauto.
Qed.

Lemma replace_0_Unknown_not_0 (c : cell) :
  Cell.replace_0_Unknown c <> CInt 0.
Proof.
  destruct c as [|z|s]; simpl; try discriminate.
  destruct z; simpl; discriminate.
Qed.

(** C1, as amended.  The chart series has one entry for each cell of the
    year column of the frame it is computed from, and none for a label
    that is not in that column (nor for a missing year); the entry is the
    mean of the heights of the rows with that cell, their sum divided by
    their number.  The frame is the completed view, whose year cell is
    the stored one with 0 replaced by "Unknown": the rows of completion
    year 0 are one group under "Unknown" and the series has no entry 0.
    The three example records give 150 for 2000 and 300 for 2010. *)
Theorem avg_height_groups_by_year_cell :
  (forall (f : frame) (k : cell),
      series_get k (avg_height f)
      = if Cell.notna k && existsb (fun r => Cell.eqb (year r) k) f
        then Some (mean (map height (group k f)))
        else None)
  /\ (forall hs : list Q,
        hs <> [] ->
        mean (map Some hs)
        = Some (Qsum hs / inject_Z (Z.of_nat (List.length hs))))
  /\ (forall (df : frame) (c : string) (r : row),
        In r (filtered_df (completed_df df) c) ->
        exists r0,
          In r0 df /\ completed r0 = true
          /\ year r = Cell.replace_0_Unknown (year r0)
          /\ height r = height r0)
  /\ (forall (df : frame) (c : string),
        series_get (CInt 0) (avg_height (filtered_df (completed_df df) c))
        = None)
  /\ reduced (avg_height (filtered_df (completed_df yearly_example)
                                      "ALL CITIES"))
     = [(CInt 2000, Some 150); (CInt 2010, Some 300)].
Proof.
  split; [exact avg_height_get|].
  split; [exact mean_of_heights|].
  split; [|split; [|vm_compute; reflexivity]].
  - intros df c r H.
    apply completed_view_origin in H as [r0 [Hr0 [Hc ->]]].
    exists r0. auto.
  - intros df c. rewrite avg_height_get.
    destruct (existsb _ _) eqn:E; [|reflexivity].
    apply existsb_year in E as [r [Hr Hy]].
    apply completed_view_origin in Hr as [r0 [_ [_ ->]]].
    simpl in Hy. apply replace_0_Unknown_not_0 in Hy. contradiction.
Qed.

(** C1, as stated, fails for a completed tower of completion year 0: its
    height is averaged under "Unknown", and the year 0 has no entry. *)
Lemma avg_height_year_0_under_Unknown :
  year tower_0 = CInt 0
  /\ avg_height (filtered_df (completed_df [tower_0]) "ALL CITIES")
     = [(CStr "Unknown", Some 100)]
  /\ series_get (CInt 0)
       (avg_height (filtered_df (completed_df [tower_0]) "ALL CITIES"))
     = None.
Proof.
  repeat split.
Qed.

(** ** A run of the script *)



Lemma in_firstn (n : nat) (l : frame) (r : row) :
  In r (firstn n l) -> In r l.
Proof.
  intros H. rewrite <- (firstn_skipn n l). apply in_or_app. left. exact H.
Qed.

Lemma names_mixed_incl (a b : frame) :
  (forall r, In r a -> In r b) ->
  names_mixed a = true -> names_mixed b = true.
Proof.
  unfold names_mixed. intros Hab H.
  apply andb_true_iff in H as [H1 H2]. apply andb_true_iff.
  apply existsb_exists in H1 as [x [Hx Ex]].
  apply existsb_exists in H2 as [y [Hy Ey]].
  split; apply existsb_exists; eauto.
Qed.

Lemma leaderboard_5_in_20 (df : frame) (c : string) :
  names_mixed (fst (leaderboard df c default_top_n)) = true ->
  names_mixed (fst (leaderboard df c 20)) = true.
Proof.
  apply names_mixed_incl. unfold leaderboard, setitem_year_replaced.
  cbn [fst]. intros r Hr. apply in_map_iff in Hr as [x [<- Hx]].
  apply in_map. revert Hx.
  rewrite (get_tallest_positive df c default_top_n) by reflexivity.
  rewrite (get_tallest_positive df c 20) by reflexivity. cbn [fst].
  replace (firstn (Z.to_nat default_top_n) (available df c))
    with (firstn 5 (firstn 20 (available df c)))
    by (rewrite firstn_firstn; reflexivity).
  apply in_firstn.
Qed.


Lemma page_two_outcome (df : frame) (c : string) (w : world) :
  exists w',
    page_two df c w
    = (w', if names_mixed (fst (leaderboard df c 20)) then inl TypeError
           else inr [("top_skyscrapers_default",
                      fst (leaderboard df c default_top_n));
                     ("top_20_skyscrapers", fst (leaderboard df c 20))])
    /\ stdout w' = stdout w
    /\ captions (screen w')
       = (captions (screen w)
            ++ (if names_mixed (fst (leaderboard df c default_top_n))
                then [top_line (snd (get_tallest_skyscrapers
                                       df c default_top_n)) c]
                else [top_line (snd (get_tallest_skyscrapers
                                       df c default_top_n)) c;
                      top_line (snd (get_tallest_skyscrapers
                                       df c default_top_n)) c]))%list.
Proof.
  pose proof (leaderboard_5_in_20 df c) as Hincl.
  unfold page_two, leaderboard, top_line in *. cbn [fst] in *.
  destruct (get_tallest_skyscrapers df c default_top_n) as [t5 n5].
  destruct (get_tallest_skyscrapers df c 20) as [t20 n20].
  cbn [fst snd] in *. unfold barh, bind, emit, ret, raise.
  destruct (names_mixed (setitem_year_replaced t5)) eqn:E5.
  - rewrite (Hincl eq_refl). cbn [stdout screen]. eexists.
    split; [reflexivity|]. split; [reflexivity|]. cbn [stdout screen].
    unfold captions. rewrite !flat_map_app. cbn [flat_map app].
    rewrite !app_nil_r, <- ?app_assoc. reflexivity.
  - destruct (names_mixed (setitem_year_replaced t20)) eqn:E20;
      cbn [stdout screen]; eexists;
      (split; [reflexivity|]); (split; [reflexivity|]);
      cbn [stdout screen]; unfold captions;
      rewrite !flat_map_app; cbn [flat_map app]; rewrite !app_nil_r;
      rewrite <- ?app_assoc; reflexivity.
Qed.







(** C9.  The run of the script when there is no file: the handler prints
    its line, the load block ends normally with [df] unbound, and the
    next statement stops the run with a [NameError]; nothing is drawn.
    Any other failure of the reader stops the run with the reader's own
    exception. *)
Theorem absent_file_ends_in_NameError :
  forall (sort_values : frame -> frame) (u : ui),
    load_block Absent (mkWorld [] [])
    = (mkWorld ["File not found."] [], inr None)
    /\ run sort_values Absent u
       = (mkWorld ["File not found."] [], inl (NameError "df"))
    /\ (forall e, e <> FileNotFoundError ->
          run sort_values (Unreadable e) u = (mkWorld [] [], inl e)).
Proof.
  intros sorter u. repeat split.
  intros e He. destruct e; try reflexivity. contradiction.
Qed.

(** * Further properties of the pipeline *)

(** ** Trimming and lowering the search input *)

Lemma is_space_lower_char (c : ascii) :
  PyStr.is_space (PyStr.lower_char c) = PyStr.is_space c.
Proof.
  destruct c as [[] [] [] [] [] [] [] []]; reflexivity.
Qed.

Lemma lower_char_idem (c : ascii) :
  PyStr.lower_char (PyStr.lower_char c) = PyStr.lower_char c.
Proof.
  destruct c as [[] [] [] [] [] [] [] []]; reflexivity.
Qed.

Lemma lower_idem (s : string) : PyStr.lower (PyStr.lower s) = PyStr.lower s.
Proof.
  induction s as [|c t IH]; simpl; [reflexivity|].
  rewrite lower_char_idem, IH. reflexivity.
Qed.

Lemma lower_lstrip (s : string) :
  PyStr.lower (PyStr.lstrip_by PyStr.is_space s)
  = PyStr.lstrip_by PyStr.is_space (PyStr.lower s).
Proof.
  induction s as [|c t IH]; simpl; [reflexivity|].
  rewrite is_space_lower_char. destruct (PyStr.is_space c);
    [exact IH | reflexivity].
Qed.

Lemma is_empty_lower (s : string) :
  PyStr.is_empty (PyStr.lower s) = PyStr.is_empty s.
Proof. destruct s; reflexivity. Qed.

Lemma lower_rstrip (s : string) :
  PyStr.lower (PyStr.rstrip_by PyStr.is_space s)
  = PyStr.rstrip_by PyStr.is_space (PyStr.lower s).
Proof.
  induction s as [|c t IH]; simpl; [reflexivity|].
  rewrite is_space_lower_char, <- IH, is_empty_lower.
  destruct (PyStr.is_space c && PyStr.is_empty _); reflexivity.
Qed.

Lemma lower_strip (s : string) :
  PyStr.lower (PyStr.strip s) = PyStr.strip (PyStr.lower s).
Proof.
  unfold PyStr.strip. rewrite lower_rstrip, lower_lstrip. reflexivity.
Qed.

Lemma lstrip_by_app_spaces (p : ascii -> bool) (a s : string) :
  all_chars p a = true ->
  PyStr.lstrip_by p (a ++ s) = PyStr.lstrip_by p s.
Proof.
  induction a as [|c t IH]; simpl; [reflexivity|].
  intros H. apply andb_true_iff in H as [Hc Ht]. rewrite Hc. exact (IH Ht).
Qed.

Lemma lstrip_by_app_r (p : ascii -> bool) (s b : string) :
  all_chars p b = true ->
  PyStr.rstrip_by p (PyStr.lstrip_by p (s ++ b))
  = PyStr.rstrip_by p (PyStr.lstrip_by p s).
Proof.
  intros Hb. induction s as [|c t IH].
  - simpl.
    assert (E : PyStr.lstrip_by p b = "").
    { clear -Hb. induction b as [|c t IH]; simpl; [reflexivity|].
      simpl in Hb. apply andb_true_iff in Hb as [Hc Ht].
      rewrite Hc. exact (IH Ht). }
    rewrite E. reflexivity.
  - simpl. destruct (p c); [exact IH|].
    change (String c (t ++ b)) with (String c t ++ b).
    apply rstrip_by_app_drop, rstrip_by_all, Hb.
Qed.

Lemma strip_padded (a s b : string) :
  all_chars PyStr.is_space a = true ->
  all_chars PyStr.is_space b = true ->
  PyStr.strip (a ++ s ++ b) = PyStr.strip s.
Proof.
  intros Ha Hb. unfold PyStr.strip.
  rewrite (lstrip_by_app_spaces _ a (s ++ b) Ha).
  apply lstrip_by_app_r, Hb.
Qed.

(** X1.  The name search does not see blanks around the input, nor the case
    of its letters. *)
Theorem find_city_ignores_padding_and_case :
  forall (df : frame) (a s b : string),
    all_chars PyStr.is_space a = true ->
    all_chars PyStr.is_space b = true ->
    find_city df (a ++ s ++ b) = find_city df s
    /\ find_city df (PyStr.lower s) = find_city df s.
Proof.
  intros df a s b Ha Hb. unfold find_city.
  rewrite (strip_padded a s b Ha Hb).
  rewrite (lower_strip (PyStr.lower s)), lower_idem, <- lower_strip.
  split; reflexivity.
Qed.

Lemma find_city_ignores_padding_and_case_witness :
  find_city [tower_a] ("  " ++ "Aon Center" ++ " ")
  = find_city [tower_a] "Aon Center"
  /\ find_city [tower_a] (PyStr.lower "Aon Center")
     = find_city [tower_a] "Aon Center".
Proof.
  apply (find_city_ignores_padding_and_case [tower_a] "  " "Aon Center" " ");
    reflexivity.
Defined.

Lemma filter_cons_split (f : row -> bool) (l : frame) (r : row) (t : frame) :
  filter f l = r :: t ->
  exists pre post,
    l = (pre ++ r :: post)%list
    /\ Forall (fun x => f x = false) pre /\ f r = true.
Proof.
  induction l as [|x l IH]; simpl; [discriminate|].
  destruct (f x) eqn:E.
  - intros [= -> _]. exists [], l. auto.
  - intros H. destruct (IH H) as [pre [post [-> [Hpre Hr]]]].
    exists (x :: pre), post. auto.
Qed.

(** X2.  With the store sorted tallest first, a name borne by several rows is
    answered with the city of a tallest one of them. *)
Theorem find_city_answers_with_tallest_match :
  forall (df : frame) (input : string) (c : cell),
    height_desc df ->
    find_city df input = Located c ->
    exists r,
      In r df /\ city r = c
      /\ name_matches (PyStr.lower (PyStr.strip input)) r = true
      /\ (forall r',
            In r' df ->
            name_matches (PyStr.lower (PyStr.strip input)) r' = true ->
            desc_ok (height r) (height r')).
Proof.
  intros df input c Hsorted. unfold find_city.
  set (wanted := PyStr.lower (PyStr.strip input)).
  destruct (negb (PyStr.is_empty wanted)); [|discriminate].
  destruct (filter (name_matches wanted) df) as [|r t] eqn:E;
    [discriminate|].
  intros [= <-].
  destruct (filter_cons_split _ _ _ _ E) as [pre [post [-> [Hpre Hr]]]].
  exists r. repeat split; auto.
  - apply in_or_app. right. left. reflexivity.
  - intros r' Hin Hm. apply in_app_or in Hin as [Hin|[<-|Hin]].
    + rewrite Forall_forall in Hpre. rewrite (Hpre r' Hin) in Hm.
      discriminate.
    + apply desc_ok_refl.
    + unfold height_desc in Hsorted.
      change (pre ++ r :: post)%list with (pre ++ [r] ++ post)%list
        in Hsorted.
      rewrite app_assoc in Hsorted.
      apply (StronglySorted_app_cross _ _ _ Hsorted r r');
        [apply in_or_app; right; left; reflexivity | exact Hin].
Qed.

Lemma find_city_answers_with_tallest_match_witness :
  exists r,
    In r [tower_a; tower_a_boston] /\ city r = CStr "Chicago"
    /\ name_matches (PyStr.lower (PyStr.strip "aon center")) r = true
    /\ (forall r',
          In r' [tower_a; tower_a_boston] ->
          name_matches (PyStr.lower (PyStr.strip "aon center")) r' = true ->
          desc_ok (height r) (height r')).
Proof.
  apply (find_city_answers_with_tallest_match
           [tower_a; tower_a_boston] "aon center" (CStr "Chicago")).
  - repeat constructor; simpl; discriminate.
  - reflexivity.
Defined.

(** ** The height column of the tables *)

Lemma stripped2_nonempty (m : Z) :
  (0 <= m)%Z -> PyStr.is_empty (stripped2 m) = false.
Proof.
  intros Hm. unfold stripped2, Fmt.fixed2.
  assert (Hq : (0 <= m / 100)%Z) by (apply Z.div_pos; lia).
  destruct (str_of_Z_digits (m / 100) Hq) as [_ Hne].
  destruct (PyStr.str_of_Z (m / 100)); [contradiction|].
  destruct (m mod 100 =? 0)%Z; [reflexivity|].
  destruct (m mod 10 =? 0)%Z; reflexivity.
Qed.

Lemma formatHeight_nonempty (x : Q) :
  PyStr.is_empty (Fmt.formatHeight x) = false.
Proof.
  rewrite formatHeight_shape.
  pose proof (stripped2_nonempty (Fmt.round_half_even (Qabs x * 100))
                (round_half_even_nonneg _ (Qabs_scaled_nonneg x))) as H.
  destruct (Fmt.is_negative x); [reflexivity | exact H].
Qed.

(** X3.  No height cell of a display table is blank, whatever the frame; the
    table has a line for each row of the frame, in the same order, with
    the name and the year cell of the row. *)
Theorem display_height_cells_not_blank :
  forall f : frame,
    Forall (fun d => PyStr.is_empty (snd (fst d)) = false) (display f)
    /\ List.length (display f) = List.length f
    /\ map (fun d => fst (fst d)) (display f) = map name f
    /\ map snd (display f) = map year f.
Proof.
  intros f. unfold display. repeat split.
  - apply Forall_forall. intros d Hd.
    apply in_map_iff in Hd as [r [<- _]]. cbn [fst snd].
    destruct (height r) as [q|]; [apply formatHeight_nonempty|reflexivity].
  - apply length_map.
  - rewrite map_map. reflexivity.
  - rewrite map_map. reflexivity.
Qed.

(** X4.  A height that is a whole number of metres is written as that number,
    with no point and no decimals. *)
Theorem formatHeight_whole_metres :
  forall n : N,
    Fmt.formatHeight (inject_Z (Z.of_N n)) = PyStr.str_of_Z (Z.of_N n).
Proof.
  intros n. rewrite formatHeight_shape.
  assert (Hn : (0 <= Z.of_N n)%Z) by lia.
  assert (Hneg : Fmt.is_negative (inject_Z (Z.of_N n)) = false).
  { unfold Fmt.is_negative. simpl. apply Z.ltb_ge. exact Hn. }
  assert (Hm : Fmt.round_half_even (Qabs (inject_Z (Z.of_N n)) * 100)
               = (Z.of_N n * 100)%Z).
  { unfold Fmt.round_half_even. simpl Qnum. simpl Qden.
    rewrite (Z.abs_eq _ Hn), Z.div_1_r, Z.mod_1_r. reflexivity. }
  rewrite Hneg, Hm. unfold stripped2.
  rewrite Z.mod_mul by lia. rewrite Z.div_mul by lia. reflexivity.
Qed.

Lemma round_half_even_near (x : Q) :
  Qabs (inject_Z (Fmt.round_half_even x) - x) <= 1 # 2.
Proof.
  apply Qabs_Qle_condition.
  destruct x as [n d]. unfold Fmt.round_half_even. simpl Qnum. simpl Qden.
  pose proof (Z.div_mod n (Zpos d) ltac:(lia)) as Hdm.
  pose proof (Z.mod_pos_bound n (Zpos d) ltac:(lia)) as Hb.
  set (q := (n / Zpos d)%Z) in *. set (r := (n mod Zpos d)%Z) in *.
  clearbody q r. subst n.
  destruct (2 * r ?= Zpos d)%Z eqn:E;
    [apply Z.compare_eq_iff in E; destruct (Z.even q)
    |change (2 * r < Zpos d)%Z in E
    |change (2 * r > Zpos d)%Z in E];
    unfold Qle, Qminus, Qplus, Qopp, inject_Z; cbn [Qnum Qden];
    rewrite ?Pos.mul_1_l, ?Pos.mul_1_r;
    split; lia.
Qed.

(** X5.  The two-decimal text of a height is its sign and a number of
    hundredths that is no further than half a hundredth from the
    height. *)
Theorem format_2f_nearest_hundredth :
  forall x : Q,
    exists m : Z,
      (0 <= m)%Z
      /\ Fmt.format_2f x
         = (if Fmt.is_negative x then "-" else "") ++ Fmt.fixed2 m
      /\ Qabs (inject_Z m - Qabs x * 100) <= 1 # 2.
Proof.
  intros x. exists (Fmt.round_half_even (Qabs x * 100)). repeat split.
  - apply round_half_even_nonneg, Qabs_scaled_nonneg.
  - apply round_half_even_near.
Qed.

(** ** The leaderboard query at its edges *)

(** X6.  The shorter leaderboard is the top of the longer one: for
    [0 < m <= n] the rows for [m] are the first [m] rows of those for
    [n]. *)
Theorem get_tallest_shorter_is_prefix :
  forall (df : frame) (c : string) (m n : Z),
    (0 < m)%Z -> (m <= n)%Z ->
    fst (get_tallest_skyscrapers df c m)
    = firstn (Z.to_nat m) (fst (get_tallest_skyscrapers df c n)).
Proof.
  intros df c m n Hm Hmn.
  rewrite (get_tallest_positive df c m Hm).
  rewrite (get_tallest_positive df c n) by lia. cbn [fst].
  rewrite firstn_firstn. f_equal. lia.
Qed.

Lemma get_tallest_shorter_is_prefix_witness :
  fst (get_tallest_skyscrapers [tower_a; tower_b; tower_0] "ALL CITIES" 2)
  = firstn (Z.to_nat 2)
      (fst (get_tallest_skyscrapers [tower_a; tower_b; tower_0]
                                    "ALL CITIES" 20)).
Proof.
  apply (get_tallest_shorter_is_prefix
           [tower_a; tower_b; tower_0] "ALL CITIES" 2 20); lia.
Defined.

(** X7.  A [top_n] of 0 gives no row and the count 0; a negative [top_n]
    gives all the rows there are for the city but the last [-top_n], and
    their number. *)
Theorem get_tallest_nonpositive_top_n :
  forall (df : frame) (c : string),
    get_tallest_skyscrapers df c 0 = ([], 0%nat)
    /\ (forall k : positive,
          get_tallest_skyscrapers df c (Zneg k)
          = (firstn (List.length (available df c) - Pos.to_nat k)
                    (available df c),
             (List.length (available df c) - Pos.to_nat k)%nat)).
Proof.
  intros df c. unfold get_tallest_skyscrapers, available, head. split.
  - destruct (String.eqb c "ALL CITIES"); reflexivity.
  - intros k. cbn [Z.leb Z.compare Z.opp Z.to_nat].
    destruct (String.eqb c "ALL CITIES");
      (f_equal; rewrite length_firstn; lia).
Qed.

(** X8.  A city no row of the store lies in has an empty leaderboard with the
    count 0, whatever [top_n] is. *)
Theorem get_tallest_unknown_city_is_empty :
  forall (df : frame) (c : string) (top_n : Z),
    c <> "ALL CITIES" ->
    Forall (fun r => city r <> CStr c) df ->
    get_tallest_skyscrapers df c top_n = ([], 0%nat).
Proof.
  intros df c n Hc Hnone. unfold get_tallest_skyscrapers.
  apply String.eqb_neq in Hc. rewrite Hc.
  assert (E : filter (in_city c) df = []).
  { apply filter_none. apply (Forall_impl _ (P := fun r => city r <> CStr c));
      [|exact Hnone].
    intros r Hr. destruct (in_city c r) eqn:Ec; [|reflexivity].
    apply in_city_spec in Ec. contradiction. }
  rewrite E. unfold head. destruct (0 <=? n)%Z; simpl;
    rewrite ?firstn_nil; reflexivity.
Qed.

Lemma get_tallest_unknown_city_is_empty_witness :
  get_tallest_skyscrapers [tower_a; tower_b] "Atlantis" 5 = ([], 0%nat).
Proof.
  apply (get_tallest_unknown_city_is_empty [tower_a; tower_b] "Atlantis" 5).
  - discriminate.
  - repeat constructor; discriminate.
Defined.

(** ** The map filter and the completed view *)

Lemma float_ge_spec (x : option Q) (c : Q) :
  Float.ge x c = true <-> exists h, x = Some h /\ c <= h.
Proof.
  destruct x as [q|]; simpl.
  - rewrite Qle_bool_iff. split; [eauto | intros [h [[= <-] H]]; exact H].
  - split; [discriminate | intros [h [H _]]; discriminate].
Qed.

Lemma float_le_spec (x : option Q) (c : Q) :
  Float.le x c = true <-> exists h, x = Some h /\ h <= c.
Proof.
  destruct x as [q|]; simpl.
  - rewrite Qle_bool_iff. split; [eauto | intros [h [[= <-] H]]; exact H].
  - split; [discriminate | intros [h [H _]]; discriminate].
Qed.

(** X9.  The map shows exactly the rows of the store whose height lies in the
    range, both ends included, and which lie in the city unless all
    cities are asked for; a range whose upper end is below its lower end
    shows nothing. *)
Theorem map_filtered_df_rows :
  forall (df : frame) (c : string) (lo hi : Z),
    (forall r,
        In r (map_filtered_df df c lo hi)
        <-> In r df
            /\ (c = "ALL CITIES" \/ city r = CStr c)
            /\ exists h, height r = Some h
                         /\ inject_Z lo <= h /\ h <= inject_Z hi)
    /\ ((hi < lo)%Z -> map_filtered_df df c lo hi = []).
Proof.
  intros df c lo hi.
  assert (Hrows : forall r,
        In r (map_filtered_df df c lo hi)
        <-> In r df
            /\ (c = "ALL CITIES" \/ city r = CStr c)
            /\ exists h, height r = Some h
                         /\ inject_Z lo <= h /\ h <= inject_Z hi).
  { intros r. unfold map_filtered_df.
    destruct (String.eqb c "ALL CITIES") eqn:Ec.
    - apply String.eqb_eq in Ec. rewrite filter_In, andb_true_iff.
      rewrite float_ge_spec, float_le_spec. split.
      + intros [Hr [[h [Hh Hlo]] [h' [Hh' Hhi]]]].
        rewrite Hh in Hh'. injection Hh' as <-. eauto 8.
      + intros [Hr [_ [h [Hh [Hlo Hhi]]]]]. eauto 8.
    - apply String.eqb_neq in Ec.
      rewrite filter_In, !andb_true_iff, in_city_spec.
      rewrite float_ge_spec, float_le_spec. split.
      + intros [Hr [[Hc [h [Hh Hlo]]] [h' [Hh' Hhi]]]].
        rewrite Hh in Hh'. injection Hh' as <-. eauto 8.
      + intros [Hr [[Hc|Hc] [h [Hh [Hlo Hhi]]]]]; [contradiction|].
        eauto 8. }
  split; [exact Hrows|].
  intros Hinv. destruct (map_filtered_df df c lo hi) as [|r t] eqn:E;
    [reflexivity|].
  exfalso.
  destruct (proj1 (Hrows r) (or_introl eq_refl))
    as [_ [_ [h [_ [Hlo Hhi]]]]].
  pose proof (Qle_trans _ _ _ Hlo Hhi) as H.
  rewrite <- Zle_Qle in H. lia.
Qed.

(** X10.  The completed view of a city holds exactly the completed rows of the
    store that lie in the city (all of them when all cities are asked
    for), each with its year column replaced. *)
Theorem completed_view_rows :
  forall (df : frame) (c : string) (r : row),
    In r (filtered_df (completed_df df) c)
    <-> exists r0,
          In r0 df
          /\ is_completed r0 = Some true
          /\ (c = "ALL CITIES" \/ city r0 = CStr c)
          /\ r = replace_year r0.
Proof.
  intros df c r.
  assert (Hc : forall x, In x (completed_df df)
                         <-> exists r0, In r0 df
                                        /\ is_completed r0 = Some true
                                        /\ x = replace_year r0).
  { intros x. unfold completed_df, setitem_year_replaced.
    rewrite in_map_iff. split.
    - intros [r0 [<- Hr0]]. apply filter_In in Hr0 as [Hr0 Hcomp].
      exists r0. repeat split; auto. unfold completed in Hcomp.
      destruct (is_completed r0) as [[]|]; congruence.
    - intros [r0 [Hr0 [Hcomp ->]]]. exists r0. split; [reflexivity|].
      apply filter_In. split; [exact Hr0|]. unfold completed.
      rewrite Hcomp. reflexivity. }
  unfold filtered_df. destruct (String.eqb c "ALL CITIES") eqn:Ec.
  - apply String.eqb_eq in Ec. rewrite Hc. split.
    + intros [r0 [H1 [H2 H3]]]. exists r0. auto.
    + intros [r0 [H1 [H2 [_ H3]]]]. exists r0. auto.
  - apply String.eqb_neq in Ec. rewrite filter_In, Hc, in_city_spec. split.
    + intros [[r0 [H1 [H2 ->]]] Hcity]. exists r0. auto.
    + intros [r0 [H1 [H2 [[H3|H3] ->]]]]; [contradiction|].
      split; [exists r0; auto | exact H3].
Qed.

Lemma height_desc_replace_year (f : frame) :
  height_desc f -> height_desc (setitem_year_replaced f).
Proof.
  unfold height_desc, setitem_year_replaced.
  induction 1 as [|x t _ IH Hx]; simpl; constructor; [exact IH|].
  apply Forall_forall. intros y Hy. apply in_map_iff in Hy as [z [<- Hz]].
  rewrite Forall_forall in Hx. exact (Hx z Hz).
Qed.

Lemma height_desc_head (n : Z) (f : frame) :
  height_desc f -> height_desc (head n f).
Proof.
  intros H. unfold head. destruct (0 <=? n)%Z;
    apply StronglySorted_firstn, H.
Qed.

(** X11.  Every view is drawn tallest first: when the store is in descending
    order of height, so are the leaderboards, the completed view of a
    city and the rows of the map. *)
Theorem views_keep_height_order :
  forall (df : frame) (c : string) (top_n lo hi : Z),
    height_desc df ->
    height_desc (fst (get_tallest_skyscrapers df c top_n))
    /\ height_desc (fst (leaderboard df c top_n))
    /\ height_desc (filtered_df (completed_df df) c)
    /\ height_desc (map_filtered_df df c lo hi).
Proof.
  intros df c n lo hi H.
  assert (Hq : height_desc (fst (get_tallest_skyscrapers df c n))).
  { unfold get_tallest_skyscrapers. cbn [fst].
    destruct (String.eqb c "ALL CITIES"); apply height_desc_head;
      [exact H | apply StronglySorted_filter, H]. }
  repeat split.
  - exact Hq.
  - unfold leaderboard. cbn [fst]. apply height_desc_replace_year, Hq.
  - unfold filtered_df, completed_df.
    assert (Hc : height_desc (setitem_year_replaced (filter completed df)))
      by (apply height_desc_replace_year, StronglySorted_filter, H).
    destruct (String.eqb c "ALL CITIES");
      [exact Hc | apply StronglySorted_filter, Hc].
  - unfold map_filtered_df.
    destruct (String.eqb c "ALL CITIES"); apply StronglySorted_filter, H.
Qed.

Lemma views_keep_height_order_witness :
  height_desc (fst (get_tallest_skyscrapers [tower_a; tower_0] "Chicago" 5))
  /\ height_desc (fst (leaderboard [tower_a; tower_0] "Chicago" 5))
  /\ height_desc (filtered_df (completed_df [tower_a; tower_0]) "Chicago")
  /\ height_desc (map_filtered_df [tower_a; tower_0] "Chicago" 300 600).
Proof.
  apply (views_keep_height_order [tower_a; tower_0] "Chicago" 5 300 600).
  repeat constructor; simpl; discriminate.
Defined.

(** ** The load stage *)

Lemma clean_cons (x : row) (f : frame) :
  clean (x :: f)
  = if keep_row x then city_astype_str x :: clean f else clean f.
Proof. unfold clean. simpl. destruct (keep_row x); reflexivity. Qed.

Lemma keep_row_coerced (x : row) :
  keep_row x = true ->
  keep_row (city_astype_str x) = true
  /\ city_astype_str (city_astype_str x) = city_astype_str x.
Proof.
  unfold keep_row. intros H. apply andb_true_iff in H as [Hh _].
  split; [|reflexivity]. cbn. rewrite Hh. reflexivity.
Qed.

(** X12.  The load stage settles: cleaning a cleaned frame changes nothing, a
    cleaned frame is never longer than the frame read, and a row with a
    height above 0 and a city passes with its city as text and all else
    as it was. *)
Theorem clean_settles :
  forall f : frame,
    clean (clean f) = clean f
    /\ (List.length (clean f) <= List.length f)%nat
    /\ (forall r,
          In r f -> keep_row r = true ->
          In (set_city (CStr (Cell.astype_str (city r))) r) (clean f)).
Proof.
  intros f. repeat split.
  - induction f as [|x t IH]; [reflexivity|].
    rewrite clean_cons. destruct (keep_row x) eqn:E; [|exact IH].
    rewrite clean_cons. destruct (keep_row_coerced x E) as [-> ->].
    rewrite IH. reflexivity.
  - unfold clean. rewrite length_map. apply filter_length_le.
  - intros r Hr Hk. unfold clean. apply in_map_iff. exists r.
    split; [reflexivity|]. apply filter_In. auto.
Qed.

(** ** The order of strings and of group labels *)

Lemma ascii_compare_refl (a : ascii) : Ascii.compare a a = Eq.
Proof. apply N.compare_refl. Qed.

Lemma ascii_compare_lt_trans (a b c : ascii) :
  Ascii.compare a b = Lt -> Ascii.compare b c = Lt ->
  Ascii.compare a c = Lt.
Proof.
  unfold Ascii.compare. rewrite !N.compare_lt_iff. apply N.lt_trans.
Qed.

Lemma string_compare_refl (s : string) : String.compare s s = Eq.
Proof.
  induction s as [|c t IH]; simpl; [reflexivity|].
  rewrite ascii_compare_refl. exact IH.
Qed.

Lemma string_compare_lt_trans (a b c : string) :
  String.compare a b = Lt -> String.compare b c = Lt ->
  String.compare a c = Lt.
Proof.
  revert b c. induction a as [|x a IH]; intros [|y b] [|z c]; simpl;
    try (intros; discriminate); try (intros; reflexivity).
  destruct (Ascii.compare x y) eqn:E1; try discriminate;
    destruct (Ascii.compare y z) eqn:E2; try discriminate; intros H1 H2.
  - apply Ascii.compare_eq_iff in E1, E2. subst.
    rewrite ascii_compare_refl. eapply IH; eassumption.
  - apply Ascii.compare_eq_iff in E1. subst. rewrite E2. reflexivity.
  - apply Ascii.compare_eq_iff in E2. subst. rewrite E1. reflexivity.
  - rewrite (ascii_compare_lt_trans _ _ _ E1 E2). reflexivity.
Qed.

Lemma string_ltb_spec (a b : string) :
  String.ltb a b = true <-> String.compare a b = Lt.
Proof.
  unfold String.ltb. destruct (String.compare a b);
    split; congruence.
Qed.

Lemma string_leb_neq_lt (a b : string) :
  String.leb a b = true -> a <> b -> String.compare a b = Lt.
Proof.
  unfold String.leb. destruct (String.compare a b) eqn:E; try congruence.
  intros _ H. apply String.compare_eq_iff in E. contradiction.
Qed.

Lemma string_leb_false_gt (a b : string) :
  String.leb a b = false -> String.compare b a = Lt.
Proof.
  unfold String.leb. rewrite String.compare_antisym.
  destruct (String.compare b a); simpl; congruence.
Qed.

Lemma label_before_trans (a b c : cell) :
  label_before a b -> label_before b c -> label_before a c.
Proof.
  unfold label_before.
  destruct a as [|x|s], b as [|y|t], c as [|z|u]; simpl;
    intros [H1 N1] [H2 N2]; try discriminate; try congruence;
    try (split; [reflexivity | discriminate]).
  - apply Z.leb_le in H1, H2. split; [apply Z.leb_le; lia|].
    intros [= Hxz]. assert (x = y) by lia. congruence.
  - assert (L1 : String.compare s t = Lt)
      by (apply string_leb_neq_lt; congruence).
    assert (L2 : String.compare t u = Lt)
      by (apply string_leb_neq_lt; congruence).
    pose proof (string_compare_lt_trans _ _ _ L1 L2) as L.
    split.
    + unfold String.leb. rewrite L. reflexivity.
    + intros [= ->]. rewrite string_compare_refl in L. discriminate.
Qed.

Lemma label_before_total (a b : cell) :
  Cell.eqb a b = false -> Cell.leb a b = false -> label_before b a.
Proof.
  unfold label_before.
  destruct a as [|x|s], b as [|y|t]; simpl; intros E L;
    try discriminate; try (split; [reflexivity | discriminate]).
  - apply Z.leb_gt in L. split; [apply Z.leb_le; lia|].
    intros [= ->]. lia.
  - pose proof (string_leb_false_gt _ _ L) as G. split.
    + unfold String.leb. rewrite G. reflexivity.
    + intros [= ->]. rewrite string_compare_refl in G. discriminate.
Qed.

Lemma insert_key_sorted (k : cell) (ks : list cell) :
  StronglySorted label_before ks ->
  StronglySorted label_before (insert_key k ks).
Proof.
  induction 1 as [|h t St IH Hh]; simpl.
  - repeat constructor.
  - destruct (Cell.eqb k h) eqn:E; [constructor; assumption|].
    destruct (Cell.leb k h) eqn:L.
    + assert (B : label_before k h).
      { split; [exact L|]. intros ->. rewrite cell_eqb_refl in E.
        discriminate. }
      constructor; [constructor; assumption|].
      constructor; [exact B|].
      eapply Forall_impl; [|exact Hh]. intros y. apply label_before_trans, B.
    + pose proof (label_before_total k h E L) as B.
      constructor; [exact IH|].
      apply Forall_forall. intros y Hy. apply insert_key_In in Hy as [->|Hy];
        [exact B|].
      rewrite Forall_forall in Hh. exact (Hh y Hy).
Qed.

Lemma group_keys_sorted (f : frame) :
  StronglySorted label_before (group_keys f).
Proof.
  induction f as [|r t IH]; simpl; [constructor|].
  destruct (Cell.notna (year r)); [apply insert_key_sorted|]; exact IH.
Qed.

Lemma sorted_strict_NoDup {A} (R : A -> A -> Prop) (l : list A) :
  (forall x, ~ R x x) -> StronglySorted R l -> NoDup l.
Proof.
  intros Hirr. induction 1 as [|h t _ IH Hh]; constructor; [|exact IH].
  intros Hin. rewrite Forall_forall in Hh. exact (Hirr h (Hh h Hin)).
Qed.

(** X14.  The chart has one bar for each label and the bars stand in the order
    of the labels, the years ascending and before them no text: the
    labels of the series are strictly ascending, so no label comes
    twice, and none of them is a missing year. *)
Theorem avg_height_labels_ascending :
  forall f : frame,
    StronglySorted label_before (map fst (avg_height f))
    /\ NoDup (map fst (avg_height f))
    /\ Forall (fun k => Cell.notna k = true) (map fst (avg_height f))
    /\ label_before (CInt 2020) (CStr "Unknown").
Proof.
  intros f.
  assert (E : map fst (avg_height f) = group_keys f).
  { unfold avg_height. rewrite map_map. cbn [fst]. apply map_id. }
  rewrite E. repeat split.
  - apply group_keys_sorted.
  - apply (sorted_strict_NoDup label_before); [|apply group_keys_sorted].
    intros x [_ H]. congruence.
  - apply Forall_forall. intros k Hk. apply group_keys_In in Hk. tauto.
  - discriminate.
Qed.

(** ** The city options and the default city *)

Lemma insert_str_In (s x : string) (l : list string) :
  In s (insert_str x l) <-> s = x \/ In s l.
Proof.
  induction l as [|h t IH]; simpl.
  - intuition congruence.
  - destruct (String.eqb x h) eqn:E.
    + apply String.eqb_eq in E. subst h. simpl. intuition congruence.
    + destruct (String.leb x h); simpl; [intuition congruence|].
      rewrite IH. intuition congruence.
Qed.

Lemma insert_str_sorted (x : string) (l : list string) :
  StronglySorted (fun a b => String.ltb a b = true) l ->
  StronglySorted (fun a b => String.ltb a b = true) (insert_str x l).
Proof.
  induction 1 as [|h t St IH Hh]; simpl.
  - repeat constructor.
  - destruct (String.eqb x h) eqn:E; [constructor; assumption|].
    apply String.eqb_neq in E.
    destruct (String.leb x h) eqn:L.
    + pose proof (string_leb_neq_lt x h L E) as B.
      constructor; [constructor; assumption|].
      constructor; [apply string_ltb_spec, B|].
      eapply Forall_impl; [|exact Hh]. intros y Hy.
      apply string_ltb_spec. apply string_ltb_spec in Hy.
      exact (string_compare_lt_trans _ _ _ B Hy).
    + pose proof (string_leb_false_gt x h L) as B.
      constructor; [exact IH|].
      apply Forall_forall. intros y Hy. apply insert_str_In in Hy as [->|Hy];
        [apply string_ltb_spec, B|].
      rewrite Forall_forall in Hh. exact (Hh y Hy).
Qed.

Lemma city_list_In (s : string) (l : list string) :
  In s (fold_right insert_str [] l) <-> In s l.
Proof.
  induction l as [|h t IH]; simpl; [tauto|].
  rewrite insert_str_In, IH. intuition congruence.
Qed.

Lemma city_list_sorted (l : list string) :
  StronglySorted (fun a b => String.ltb a b = true)
                 (fold_right insert_str [] l).
Proof.
  induction l as [|h t IH]; simpl; [constructor|].
  apply insert_str_sorted, IH.
Qed.

(** X15.  The options of the select box are "ALL CITIES" and then the cities
    of the store, each once, in ascending order of their text; a text is
    among them exactly when a row of the store has it as its city. *)
Theorem city_options_sorted_cities :
  forall df : frame,
    exists cities,
      city_options df = "ALL CITIES" :: cities
      /\ StronglySorted (fun a b => String.ltb a b = true) cities
      /\ NoDup cities
      /\ (forall s,
            In s cities
            <-> exists r, In r df /\ Cell.astype_str (city r) = s).
Proof.
  intros df. eexists. split; [reflexivity|]. repeat split.
  - apply city_list_sorted.
  - apply (sorted_strict_NoDup (fun a b => String.ltb a b = true));
      [|apply city_list_sorted].
    intros x H. apply string_ltb_spec in H.
    rewrite string_compare_refl in H. discriminate.
  - intros H. apply city_list_In, in_map_iff in H.
    destruct H as [r [E Hr]]. eauto.
  - intros [r [Hr E]]. apply city_list_In, in_map_iff. eauto.
Qed.

Lemma index_of_Some (s : string) (l : list string) (i : nat) (d : string) :
  index_of s l = Some i -> nth i l d = s.
Proof.
  revert i. induction l as [|h t IH]; simpl; intros i; [discriminate|].
  destruct (String.eqb s h) eqn:E.
  - intros [= <-]. symmetry. apply String.eqb_eq, E.
  - destruct (index_of s t) as [j|]; simpl; [|discriminate].
    intros [= <-]. apply IH. reflexivity.
Qed.

Lemma index_of_None (s : string) (l : list string) :
  index_of s l = None <-> ~ In s l.
Proof.
  induction l as [|h t IH]; simpl; [tauto|].
  destruct (String.eqb s h) eqn:E.
  - apply String.eqb_eq in E. split; [discriminate|].
    intros H. exfalso. apply H. left. congruence.
  - apply String.eqb_neq in E. split.
    + intros H.
      assert (Hn : index_of s t = None)
        by (destruct (index_of s t); [discriminate | reflexivity]).
      apply IH in Hn. intros [Hh|Hin]; [congruence | contradiction].
    + intros H. assert (Hn : index_of s t = None) by (apply IH; tauto).
      rewrite Hn. reflexivity.
Qed.

Lemma chicago_among_options (df : frame) :
  In "Chicago" (city_options df)
  <-> existsb (fun r => String.eqb (Cell.astype_str (city r)) "Chicago") df
      = true.
Proof.
  unfold city_options. rewrite existsb_exists. simpl. split.
  - intros [H|H]; [discriminate|].
    apply city_list_In, in_map_iff in H. destruct H as [r [E Hr]].
    exists r. split; [exact Hr | apply String.eqb_eq, E].
  - intros [r [Hr E]]. right. apply city_list_In, in_map_iff.
    exists r. split; [apply String.eqb_eq, E | exact Hr].
Qed.

(** X16.  When the select box is left as it starts, the city is "Chicago" if a
    row of the store lies there and "ALL CITIES" if none does. *)
Theorem default_city_is_Chicago_if_present :
  forall (df : frame) (p : page) (input : string) (range : Z * Z),
    selected_city df (mkUi p None input range)
    = if existsb (fun r => String.eqb (Cell.astype_str (city r)) "Chicago")
                 df
      then "Chicago" else "ALL CITIES".
Proof.
  intros df p input range. unfold selected_city. cbn [city_pick].
  unfold default_index.
  destruct (existsb _ df) eqn:E.
  - apply chicago_among_options in E.
    destruct (index_of "Chicago" (city_options df)) as [i|] eqn:Ei.
    + apply index_of_Some, Ei.
    + apply index_of_None in Ei. contradiction.
  - destruct (index_of "Chicago" (city_options df)) as [i|] eqn:Ei;
      [|reflexivity].
    assert (Hin : In "Chicago" (city_options df)).
    { rewrite <- (index_of_Some _ _ _ "ALL CITIES" Ei) at 1.
      destruct (nth_in_or_default i (city_options df) "ALL CITIES")
        as [H|H]; [exact H|].
      rewrite (index_of_Some _ _ _ "ALL CITIES" Ei) in H. discriminate. }
    apply chicago_among_options in Hin. congruence.
Qed.

Lemma selected_city_is_option (df : frame) (u : ui) :
  In (selected_city df u) (city_options df).
Proof.
  assert (H : forall i, In (nth i (city_options df) "ALL CITIES")
                           (city_options df)).
  { intros i.
    destruct (nth_in_or_default i (city_options df) "ALL CITIES")
      as [H| ->]; [exact H | left; reflexivity]. }
  unfold selected_city. destruct (city_pick u); apply H.
Qed.

(** X17.  The city the select box gives is one of its options; on a store that
    meets the load invariant a city other than "ALL CITIES" has a
    leaderboard that is not empty and starts with a row of that city. *)
Theorem selected_city_has_rows :
  forall (df : frame) (u : ui),
    Forall store_ok df ->
    In (selected_city df u) (city_options df)
    /\ (selected_city df u <> "ALL CITIES" ->
        exists r rest,
          fst (get_tallest_skyscrapers df (selected_city df u)
                                       default_top_n)
          = r :: rest
          /\ city r = CStr (selected_city df u)).
Proof.
  intros df u Hok. split; [apply selected_city_is_option|].
  set (c := selected_city df u). intros Hc.
  assert (Hin : In c (city_options df)) by apply selected_city_is_option.
  destruct Hin as [Hall|Hin]; [congruence|].
  apply city_list_In, in_map_iff in Hin. destruct Hin as [r0 [E Hr0]].
  rewrite Forall_forall in Hok. destruct (Hok r0 Hr0) as [_ [s [Hs _]]].
  rewrite Hs in E. simpl in E. subst s.
  assert (Hf : In r0 (filter (in_city c) df))
    by (apply filter_In; split; [exact Hr0 | apply in_city_spec, Hs]).
  unfold get_tallest_skyscrapers. apply String.eqb_neq in Hc. rewrite Hc.
  cbn [fst]. destruct (filter (in_city c) df) as [|r rest] eqn:Ef;
    [contradiction|].
  exists r, (firstn 4 rest). split; [reflexivity|].
  assert (Hr : In r (filter (in_city c) df))
    by (rewrite Ef; left; reflexivity).
  apply filter_In in Hr. apply in_city_spec. tauto.
Qed.

Lemma selected_city_has_rows_witness :
  In (selected_city [tower_a; tower_0] ui_page_two)
     (city_options [tower_a; tower_0])
  /\ (selected_city [tower_a; tower_0] ui_page_two <> "ALL CITIES" ->
      exists r rest,
        fst (get_tallest_skyscrapers
               [tower_a; tower_0]
               (selected_city [tower_a; tower_0] ui_page_two)
               default_top_n)
        = r :: rest
        /\ city r = CStr (selected_city [tower_a; tower_0] ui_page_two)).
Proof.
  apply (selected_city_has_rows [tower_a; tower_0] ui_page_two).
  repeat constructor; simpl; eexists; split;
    try reflexivity; discriminate.
Defined.

(** ** Page two *)

(** X18.  Page two writes the same line above both of its tables: the
    count in it is the count of the five-row query, the smaller of 5 and
    the rows there are for the city, also above the twenty-row table,
    whose own length is the smaller of 20 and those rows.  When a name is
    missing among the names of the five-row leaderboard the first chart
    stops the page with [TypeError] after the first line; when one is
    missing among the names of the twenty-row leaderboard the page ends
    with [TypeError], and otherwise with its two frames.  The page prints
    nothing. *)
Theorem page_two_captions :
  forall (df : frame) (c : string) (w : world),
    exists w' res,
      page_two df c w = (w', res)
      /\ stdout w' = stdout w
      /\ res = (if names_mixed (fst (leaderboard df c 20))
                then inl TypeError
                else inr [("top_skyscrapers_default",
                           fst (leaderboard df c default_top_n));
                          ("top_20_skyscrapers",
                           fst (leaderboard df c 20))])
      /\ (let line :=
            top_line (Nat.min 5 (List.length (available df c))) c in
          captions (screen w')
          = (captions (screen w)
               ++ (if names_mixed (fst (leaderboard df c default_top_n))
                   then [line] else [line; line]))%list)
      /\ (names_mixed (fst (leaderboard df c default_top_n)) = true ->
          names_mixed (fst (leaderboard df c 20)) = true)
      /\ List.length (fst (leaderboard df c 20))
         = Nat.min 20 (List.length (available df c)).
Proof.
  intros df c w.
  destruct (page_two_outcome df c w) as [w' [Hrun [Hout Hcap]]].
  exists w'. eexists. split; [exact Hrun|]. split; [exact Hout|].
  split; [reflexivity|]. split; [|split].
  - cbv zeta. rewrite Hcap.
    rewrite (get_tallest_positive df c default_top_n) by reflexivity.
    cbn [snd]. rewrite length_firstn. reflexivity.
  - apply leaderboard_5_in_20.
  - unfold leaderboard, setitem_year_replaced. cbn [fst].
    rewrite (get_tallest_positive df c 20) by reflexivity. cbn [fst].
    rewrite length_map, length_firstn. reflexivity.
Qed.
